(** * Source resolution and loading (zenml/utils/source_utils.py)

    A shallow embedding of the source-resolution subsystem: the classifier
    [get_source_type], the resolver [resolve], the loader [load], the
    source-root derivation [get_source_root], the module-path re-derivation
    [_resolve_module] and the repository-context cache
    [find_active_code_repository] / [set_custom_local_repository].

    Process-wide mutable state ([sys.path], [sys.modules], the two module
    globals, the warning log) is threaded explicitly through a state-and-
    exception monad; everything the code only consults (file system,
    installed distributions, registered code repositories, the import
    machinery) is collected in an environment record. *)

From Stdlib Require Import String Ascii List Bool Arith Lia.
From stdpp Require Import base option list gmap strings.

Import ListNotations.
Local Open Scope string_scope.
Local Open Scope list_scope.

(* ===================================================================== *)
(** ** Python strings *)
(* ===================================================================== *)

Module Str.

  (** [bool(s)] for a Python string. *)
Definition truthy (s : string) : bool := negb (String.eqb s "").

  (** [s.split(sep)] for a one-character separator. *)
Fixpoint split (sep : ascii) (s : string) : list string :=
    match s with
    | EmptyString => [EmptyString]
    | String c s' =>
        if Ascii.eqb c sep then EmptyString :: split sep s'
        else match split sep s' with
             | [] => [String c EmptyString]
             | x :: xs => String c x :: xs
             end
    end.

  (** [sep.join(l)]. *)
Fixpoint join (sep : string) (l : list string) : string :=
    match l with
    | [] => ""
    | [x] => x
    | x :: xs => x +:+ sep +:+ join sep xs
    end.

  (** [s.startswith(p)]. *)
Definition startswith (s p : string) : bool := String.prefix p s.

  (** [s.replace(a, b)] for one-character [a] and [b]. *)
Fixpoint replace (a b : ascii) (s : string) : string :=
    match s with
    | EmptyString => EmptyString
    | String c s' => String (if Ascii.eqb c a then b else c) (replace a b s')
    end.

  (** [s.split(sep, maxsplit=1)[0]]. *)
Definition split_first (sep : ascii) (s : string) : string :=
    hd "" (split sep s).

Definition endswith_char (s : string) (c : ascii) : bool :=
    match rev (list_ascii_of_string s) with
    | x :: _ => Ascii.eqb x c
    | [] => false
    end.

End Str.

(* ===================================================================== *)
(** ** os.path (POSIX flavour) *)
(* ===================================================================== *)

Module os_path.

Definition sep : string := "/".
Definition sep_char : ascii := "/"%char.
Definition pardir : string := "..".
Definition curdir : string := ".".

Definition isabs (p : string) : bool := Str.startswith p sep.

  (** [os.path.join(a, b)]. *)
Definition join (a b : string) : string :=
    if Str.startswith b sep then b
    else if negb (Str.truthy a) || Str.endswith_char a sep_char then a +:+ b
    else a +:+ sep +:+ b.

  (** The loop of [normpath]: the components kept so far are held in
      reverse, so that [new_comps[-1]] is the head and [pop()] drops it. *)
Fixpoint norm_comps (initial_slashes : bool) (comps : list string)
           (rev_new : list string) : list string :=
    match comps with
    | [] => rev rev_new
    | comp :: rest =>
        if String.eqb comp "" || String.eqb comp "." then
          norm_comps initial_slashes rest rev_new
        else if negb (String.eqb comp "..")
                || (negb initial_slashes && match rev_new with [] => true | _ => false end)
                || match rev_new with x :: _ => String.eqb x ".." | [] => false end
        then norm_comps initial_slashes rest (comp :: rev_new)
        else norm_comps initial_slashes rest (tl rev_new)
    end.

  (** Number of leading slashes retained by [normpath]: 0, 1 or 2. *)
Definition initial_slashes (p : string) : nat :=
    if Str.startswith p "/" then
      if Str.startswith p "//" && negb (Str.startswith p "///") then 2 else 1
    else 0.

Definition slashes (n : nat) : string :=
    match n with 0 => "" | 1 => "/" | _ => "//" end.

Definition normpath (p : string) : string :=
    let n := initial_slashes p in
    let comps := norm_comps (negb (Nat.eqb n 0)) (Str.split sep_char p) [] in
    let path := slashes n +:+ Str.join sep comps in
    if Str.truthy path then path else curdir.

  (** [os.path.abspath(p)] in a process whose working directory is [cwd]. *)
Definition abspath (cwd p : string) : string :=
    normpath (if isabs p then p else join cwd p).

Fixpoint commonprefix_len (a b : list string) : nat :=
    match a, b with
    | x :: a', y :: b' => if String.eqb x y then S (commonprefix_len a' b') else 0
    | _, _ => 0
    end.

Definition nonempty_comps (p : string) : list string :=
    filter (fun x => Str.truthy x = true) (Str.split sep_char p).

  (** [os.path.relpath(path, start)]; both arguments are non-empty at the
      single call site, so the [ValueError] for an empty path is not
      reachable there. *)
Definition relpath (cwd path start : string) : string :=
    let start_list := nonempty_comps (abspath cwd start) in
    let path_list := nonempty_comps (abspath cwd path) in
    let i := commonprefix_len start_list path_list in
    let rel_list := repeat pardir (length start_list - i) ++ drop i path_list in
    match rel_list with
    | [] => curdir
    | _ => Str.join sep rel_list
    end.

  (** Split a reversed character list at its first ['.'], i.e. the original
      string at its last dot: [(characters after the dot, reversed;
      characters before the dot, reversed)]. *)
Fixpoint break_dot (r : list ascii) : option (list ascii * list ascii) :=
    match r with
    | [] => None
    | c :: r' =>
        if Ascii.eqb c "."%char then Some ([], r')
        else match break_dot r' with
             | Some (after, before) => Some (c :: after, before)
             | None => None
             end
    end.

Fixpoint span_dots (l : list ascii) : list ascii * list ascii :=
    match l with
    | c :: l' =>
        if Ascii.eqb c "."%char then
          let '(d, r) := span_dots l' in (c :: d, r)
        else ([], l)
    | [] => ([], [])
    end.

  (** Split a reversed character list at its first ['/']: [(file name,
      reversed; directory part including the slash, reversed)]. *)
Fixpoint break_sep (r : list ascii) : list ascii * list ascii :=
    match r with
    | [] => ([], [])
    | c :: r' =>
        if Ascii.eqb c sep_char then ([], r)
        else let '(f, d) := break_sep r' in (c :: f, d)
    end.

  (** [os.path.splitext(p)]: the extension starts at the last dot of the
      last path component, leading dots of that component not counting. *)
Definition splitext (p : string) : string * string :=
    let '(rfile, rdir) := break_sep (rev (list_ascii_of_string p)) in
    let '(dots, rest) := span_dots (rev rfile) in
    match break_dot (rev rest) with
    | Some (rafter, rbefore) =>
        (string_of_list_ascii (rev rdir ++ dots ++ rev rbefore),
         string_of_list_ascii ("."%char :: rev rafter))
    | None => (p, "")
    end.

End os_path.

(* ===================================================================== *)
(** ** pathlib (POSIX flavour) *)
(* ===================================================================== *)

Module pathlib.

  (** A parsed path: the anchor (["", "/" or "//"]) and the components,
      with empty and ["."] components dropped by the parser. *)
Record PurePath := mkPath { anchor : string; parts : list string }.

#[global] Instance PurePath_eq_dec : EqDecision PurePath.
  Proof. solve_decision. Defined.

Definition Path (s : string) : PurePath :=
    {| anchor := os_path.slashes (os_path.initial_slashes s);
       parts := filter (fun x => (Str.truthy x && negb (String.eqb x ".")) = true)
                       (Str.split os_path.sep_char s) |}.

  (** [str(p)] and [p.as_posix()]. *)
Definition str (p : PurePath) : string :=
    let s := anchor p +:+ Str.join os_path.sep (parts p) in
    if Str.truthy s then s else ".".

Definition as_posix : PurePath -> string := str.

  (** [p.parent]. *)
Definition parent (p : PurePath) : PurePath :=
    {| anchor := anchor p; parts := removelast (parts p) |}.

  (** The proper prefixes of a component list, longest first. *)
Fixpoint proper_prefixes (l : list string) : list (list string) :=
    match l with
    | [] => []
    | x :: l' => map (cons x) (proper_prefixes l') ++ [[]]
    end.

  (** [p.parents]. *)
Definition parents (p : PurePath) : list PurePath :=
    map (mkPath (anchor p)) (proper_prefixes (parts p)).

  (** [a in l] on paths: equality of parsed paths. *)
Definition contains (l : list PurePath) (a : PurePath) : bool :=
    existsb (fun b => bool_decide (a = b)) l.

Fixpoint is_prefix (a b : list string) : bool :=
    match a, b with
    | [], _ => true
    | x :: a', y :: b' => String.eqb x y && is_prefix a' b'
    | _ :: _, [] => false
    end.

  (** [p.relative_to(other)]: [None] stands for the [ValueError]. *)
Definition relative_to (p other : PurePath) : option PurePath :=
    if String.eqb (anchor p) (anchor other) && is_prefix (parts other) (parts p)
    then Some {| anchor := ""; parts := drop (length (parts other)) (parts p) |}
    else None.

End pathlib.

(* ===================================================================== *)
(** ** Exceptions and the state-and-exception monad *)
(* ===================================================================== *)

(** The [RuntimeError]s of the file, told apart by the place that raises. *)
Inductive RuntimeErrorKind :=
| NotTopLevel              (* resolve: the object is no top-level attribute *)
| MainModuleNotFound       (* get_source_root: no [__main__] in sys.modules *)
| MainModuleWithoutFile    (* get_source_root: [__main__] has no file *)
| NotLoadedFromFile        (* _resolve_module: [__main__] without a file *)
| OutsideSourceRoot        (* _resolve_module *)
| NotAPythonFile.          (* _resolve_module *)

Inductive exn :=
| RuntimeError (k : RuntimeErrorKind)
| KeyError
| ValueError
| AttributeError
| ValidationError
| ImportError.

Inductive result (A : Type) :=
| Ok (a : A)
| Raise (e : exn).
Arguments Ok {A} a.
Arguments Raise {A} e.

Definition rbind {A B} (r : result A) (k : A -> result B) : result B :=
  match r with
  | Ok a => k a
  | Raise e => Raise e
  end.

Definition is_ok {A} (r : result A) : bool :=
  match r with Ok _ => true | Raise _ => false end.

(** [bool(x)] and the string under an [Optional[str]]. *)
Definition opt_truthy (o : option string) : bool :=
  match o with
  | Some s => Str.truthy s
  | None => false
  end.

Definition opt_str (o : option string) : string := default "" o.

(* ===================================================================== *)
(** ** Python objects *)
(* ===================================================================== *)

(** A module object. [__file__] is [None] both when the attribute is
    missing and when it is [None]; [__dict__] maps each attribute name to
    the identity ([id(...)]) of the object bound to it. *)
Record Module := mkModule {
  mod_id : nat;
  __name__ : string;
  __file__ : option string;
  __dict__ : gmap string nat
}.

(** A class or function object: its identity, [__module__], [__name__]. *)
Record ClassOrFunction := mkDef {
  oid : nat;
  def__module__ : string;
  def__name__ : string
}.

(** The argument of [resolve]: [Union[Type[Any], FunctionType, ModuleType]]. *)
Inductive PyObject :=
| ObjModule (m : Module)
| ObjDef (d : ClassOrFunction).

(** What [load] hands back: the module itself, or the object (by identity)
    bound to the attribute. *)
Inductive Loaded :=
| LModule (m : Module)
| LAttr (ident : nat).

(** Modelled from the spec: the descriptor classes of [zenml.config.source]
    ([SourceType], [Source], [CodeRepositorySource],
    [DistributionPackageSource]) are imported by the file but defined
    elsewhere. Per the data model a descriptor has a module path, an
    optional attribute, a classification, and a variant payload that is
    either absent, the code-repository fields or the distribution-package
    fields. *)
Inductive SourceType :=
| USER | BUILTIN | INTERNAL | DISTRIBUTION_PACKAGE | CODE_REPOSITORY | UNKNOWN.

#[global] Instance SourceType_eq_dec : EqDecision SourceType.
Proof. solve_decision. Defined.

Inductive Payload :=
| Plain
| CodeRepositoryFields (repository_id commit subdirectory : string)
| DistributionPackageFields (package_name : string) (version : option string).

Record Source := mkSource {
  module : string;
  attribute : option string;
  type : SourceType;
  payload : Payload
}.

(** Modelled from the spec: [CodeRepositorySource(...)] as built by
    [resolve]; the classification is the class's own tag. *)
Definition CodeRepositorySource (repository_id commit subdirectory module_name : string)
           (attribute_name : option string) : Source :=
  {| module := module_name; attribute := attribute_name; type := CODE_REPOSITORY;
     payload := CodeRepositoryFields repository_id commit subdirectory |}.

(** Modelled from the spec: [DistributionPackageSource(...)] as built by
    [resolve], which passes the classification explicitly. *)
Definition DistributionPackageSource (module_name : string) (attribute_name : option string)
           (package_name : string) (version : option string) (ty : SourceType) : Source :=
  {| module := module_name; attribute := attribute_name; type := ty;
     payload := DistributionPackageFields package_name version |}.

Definition PlainSource (module_name : string) (attribute_name : option string)
           (ty : SourceType) : Source :=
  {| module := module_name; attribute := attribute_name; type := ty; payload := Plain |}.

(** Modelled from the spec: [CodeRepositorySource.parse_obj(source)]
    validates that the variant fields are present. *)
Definition CodeRepositorySource_parse_obj (s : Source) : result (string * string * string) :=
  match payload s with
  | CodeRepositoryFields r c d => Ok (r, c, d)
  | _ => Raise ValidationError
  end.

(** Modelled from the spec: [DistributionPackageSource.parse_obj(source)]. *)
Definition DistributionPackageSource_parse_obj (s : Source) : result (string * option string) :=
  match payload s with
  | DistributionPackageFields p v => Ok (p, v)
  | _ => Raise ValidationError
  end.

(** The interface of [zenml.code_repositories.LocalRepositoryContext] as
    the file reads it. *)
Record LocalRepositoryContext := mkContext {
  code_repository_id : string;
  root : string;
  current_commit : string;
  is_dirty : bool;
  has_local_changes : bool
}.

(** Modelled from the spec: [_DownloadedRepositoryContext] is defined in a
    module that is not part of the excerpt. It is the manually constructed
    context for files downloaded at a known commit; such a checkout counts
    as clean. *)
Definition _DownloadedRepositoryContext (code_repository_id root commit : string)
  : LocalRepositoryContext :=
  {| code_repository_id := code_repository_id; root := root; current_commit := commit;
     is_dirty := false; has_local_changes := false |}.

(** The interface of [BaseCodeRepository]: its id and the live probe. *)
Record BaseCodeRepository := mkRepo {
  repo_id : string;
  get_local_context : string -> option LocalRepositoryContext
}.

(** The four drift warnings of a code-repository load and the version
    warning of a distribution-package load. *)
Inductive Warning :=
| WarnNoActiveRepository
| WarnDifferentRepository
| WarnDifferentCommit
| WarnUncommittedChanges
| WarnVersionMismatch.

#[global] Instance Warning_eq_dec : EqDecision Warning.
Proof. solve_decision. Defined.

(* ===================================================================== *)
(** ** Process state and environment *)
(* ===================================================================== *)

Record World := mkWorld {
  sys_path : list string;
  sys_modules : gmap string Module;
  _CODE_REPOSITORY_CACHE : gmap string LocalRepositoryContext;
  _CUSTOM_SOURCE_ROOT : option string;
  (* observation of the collaborators *)
  warning_log : list Warning;     (* [logger.warning] calls, oldest first *)
  listings : nat;                 (* enumerations of the repository list *)
  probes : nat;                   (* [get_local_context] calls *)
  sys_path_writes : nat           (* [sys.path.insert] / [sys.path.remove] *)
}.

Definition set_sys_path (f : list string -> list string) (w : World) : World :=
  mkWorld (f (sys_path w)) (sys_modules w) (_CODE_REPOSITORY_CACHE w)
          (_CUSTOM_SOURCE_ROOT w) (warning_log w) (listings w) (probes w)
          (sys_path_writes w).

Definition set_sys_modules (f : gmap string Module -> gmap string Module) (w : World) : World :=
  mkWorld (sys_path w) (f (sys_modules w)) (_CODE_REPOSITORY_CACHE w)
          (_CUSTOM_SOURCE_ROOT w) (warning_log w) (listings w) (probes w)
          (sys_path_writes w).

Definition set_cache (f : gmap string LocalRepositoryContext -> gmap string LocalRepositoryContext)
           (w : World) : World :=
  mkWorld (sys_path w) (sys_modules w) (f (_CODE_REPOSITORY_CACHE w))
          (_CUSTOM_SOURCE_ROOT w) (warning_log w) (listings w) (probes w)
          (sys_path_writes w).

Definition set_custom_root (r : option string) (w : World) : World :=
  mkWorld (sys_path w) (sys_modules w) (_CODE_REPOSITORY_CACHE w)
          r (warning_log w) (listings w) (probes w) (sys_path_writes w).

Definition log_warning (x : Warning) (w : World) : World :=
  mkWorld (sys_path w) (sys_modules w) (_CODE_REPOSITORY_CACHE w)
          (_CUSTOM_SOURCE_ROOT w) (warning_log w ++ [x]) (listings w) (probes w)
          (sys_path_writes w).

Definition count_listing (w : World) : World :=
  mkWorld (sys_path w) (sys_modules w) (_CODE_REPOSITORY_CACHE w)
          (_CUSTOM_SOURCE_ROOT w) (warning_log w) (S (listings w)) (probes w)
          (sys_path_writes w).

Definition count_probe (w : World) : World :=
  mkWorld (sys_path w) (sys_modules w) (_CODE_REPOSITORY_CACHE w)
          (_CUSTOM_SOURCE_ROOT w) (warning_log w) (listings w) (S (probes w))
          (sys_path_writes w).

Definition count_path_write (w : World) : World :=
  mkWorld (sys_path w) (sys_modules w) (_CODE_REPOSITORY_CACHE w)
          (_CUSTOM_SOURCE_ROOT w) (warning_log w) (listings w) (probes w)
          (S (sys_path_writes w)).

(** What running the finders and the module body does for a name that is
    not yet in [sys.modules]: the new module or the exception, and the
    search path the executed code leaves behind. *)
Record ImportOutcome := mkImport {
  imp_module : result Module;
  imp_sys_path : list string
}.

(** [importlib.metadata.version]: the installed version, or one of the two
    errors it is documented to raise. *)
Inductive VersionLookup :=
| VersionIs (v : string)
| VersionValueError
| VersionPackageNotFoundError.

Record Env := mkEnv {
  getcwd : string;
  (* [Path.resolve()]: absolute, symlinks followed *)
  path_resolve : pathlib.PurePath -> pathlib.PurePath;
  (* [Client.find_repository()] *)
  find_repository : option pathlib.PurePath;
  (* [get_python_lib(standard_lib=True)] *)
  stdlib_root : string;
  getsitepackages : list string;
  getusersitepackages : string;
  (* [packages_distributions().get(name, [])] *)
  packages_distributions : string -> list string;
  metadata_version : string -> VersionLookup;
  (* [depaginate(list_method=Client().list_code_repositories)] *)
  list_code_repositories : list string;
  (* [BaseCodeRepository.from_model(model)]; [None] when it raises *)
  from_model : string -> option BaseCodeRepository;
  (* finders and loaders behind [importlib.import_module] *)
  importer : list string -> string -> ImportOutcome;
  (* [Source.from_import_path], defined with the descriptor classes *)
  from_import_path : string -> result Source
}.

Definition M (A : Type) : Type := World -> World * result A.

Definition ret {A} (a : A) : M A := fun w => (w, Ok a).
Definition raise {A} (e : exn) : M A := fun w => (w, Raise e).
Definition lift {A} (r : result A) : M A := fun w => (w, r).
Definition reader {A} (f : World -> result A) : M A := fun w => (w, f w).
Definition gets {A} (f : World -> A) : M A := fun w => (w, Ok (f w)).
Definition modify (f : World -> World) : M unit := fun w => (f w, Ok tt).

Definition bind {A B} (m : M A) (k : A -> M B) : M B :=
  fun w =>
    match m w with
    | (w', Ok a) => k a w'
    | (w', Raise e) => (w', Raise e)
    end.

(** [try: body finally: fin]: [fin] runs on both exits; an exception of
    [fin] replaces the outcome of [body]. *)
Definition try_finally {A} (body : M A) (fin : M unit) : M A :=
  fun w =>
    let '(w1, r) := body w in
    match fin w1 with
    | (w2, Ok _) => (w2, r)
    | (w2, Raise e) => (w2, Raise e)
    end.

Declare Scope py_scope.
Delimit Scope py_scope with py.
Notation "x <- m ;; k" := (bind m (fun x => k))
  (at level 20, m at level 99, k at level 200, only parsing) : py_scope.
Notation "m ;;; k" := (bind m (fun _ => k))
  (at level 100, k at level 200, right associativity, only parsing) : py_scope.
Notation "x <~ r ;; k" := (rbind r (fun x => k))
  (at level 20, r at level 99, k at level 200, only parsing) : py_scope.
Notation "' p <- m ;; k" := (bind m (fun x => let 'p := x in k))
  (at level 20, p pattern, m at level 99, k at level 200, only parsing) : py_scope.
Local Open Scope py_scope.

(* ===================================================================== *)
(** ** The functions of source_utils.py *)
(* ===================================================================== *)

Section SourceUtils.

Context (E : Env).

  (** [Path(a) in Path(b).parents], the containment test of the three
      [is_*_file] predicates. *)
Definition in_parents (a b : pathlib.PurePath) : bool :=
    pathlib.contains (pathlib.parents b) a.

  (** [get_source_root()]. It only reads the process state. *)
Definition get_source_root (w : World) : result string :=
    if opt_truthy (_CUSTOM_SOURCE_ROOT w) then
      Ok (opt_str (_CUSTOM_SOURCE_ROOT w))
    else
      match find_repository E with
      | Some repo_root => Ok (pathlib.str (path_resolve E repo_root))
      | None =>
          match sys_modules w !! "__main__" with
          | None => Raise (RuntimeError MainModuleNotFound)
          | Some main_module =>
              if negb (opt_truthy (__file__ main_module)) then
                Raise (RuntimeError MainModuleWithoutFile)
              else
                let path :=
                  pathlib.parent
                    (path_resolve E (pathlib.Path (opt_str (__file__ main_module)))) in
                Ok (pathlib.str path)
          end
      end.

  (** [set_custom_source_root(source_root)]. *)
Definition set_custom_source_root (source_root : option string) : M unit :=
    modify (set_custom_root source_root).

  (** [set_custom_local_repository(root, commit, repo)]. *)
Definition set_custom_local_repository (root commit : string)
             (repo : BaseCodeRepository) : M unit :=
    source_root <- reader get_source_root ;;
    let path := os_path.abspath (getcwd E) source_root in
    modify (set_cache
              (insert path (_DownloadedRepositoryContext (repo_id repo) root commit))).

  (** The [for model in depaginate(...)] loop of
      [find_active_code_repository]. *)
Fixpoint scan_code_repositories (path : string) (models : list string)
    : M (option LocalRepositoryContext) :=
    match models with
    | [] => ret None
    | model :: rest =>
        match from_model E model with
        | None => scan_code_repositories path rest
        | Some repo =>
            modify count_probe ;;;
            match get_local_context repo path with
            | Some local_context =>
                modify (set_cache (insert path local_context)) ;;;
                ret (Some local_context)
            | None => scan_code_repositories path rest
            end
        end
    end.

  (** [find_active_code_repository(path=None)]. *)
Definition find_active_code_repository (path : option string)
    : M (option LocalRepositoryContext) :=
    path <- (if opt_truthy path then ret (opt_str path) else reader get_source_root) ;;
    let path := os_path.abspath (getcwd E) path in
    cache <- gets _CODE_REPOSITORY_CACHE ;;
    match cache !! path with
    | Some ctx => ret (Some ctx)
    | None =>
        modify count_listing ;;;
        scan_code_repositories path (list_code_repositories E)
    end.

  (** [is_internal_module(module_name)]. *)
Definition is_internal_module (module_name : string) : bool :=
    String.eqb (Str.split_first "."%char module_name) "zenml".

  (** [is_user_file(file_path)]. *)
Definition is_user_file (w : World) (file_path : string) : result bool :=
    source_root <~ get_source_root w ;;
    Ok (in_parents (pathlib.Path source_root)
                   (path_resolve E (pathlib.Path file_path))).

  (** [is_standard_lib_file(file_path)]. *)
Definition is_standard_lib_file (file_path : string) : bool :=
    in_parents (path_resolve E (pathlib.Path (stdlib_root E)))
               (path_resolve E (pathlib.Path file_path)).

  (** [_get_package_for_module(module_name)]. *)
Definition _get_package_for_module (module_name : string) : option string :=
    let top_level_module := Str.split_first "."%char module_name in
    let package_names := packages_distributions E top_level_module in
    match package_names with
    | [name] => Some name
    | _ => None
    end.

  (** [_get_package_version(package_name)]. *)
Definition _get_package_version (package_name : string) : option string :=
    match metadata_version E package_name with
    | VersionIs v => Some v
    | VersionValueError | VersionPackageNotFoundError => None
    end.

  (** [is_distribution_package_file(file_path, module_name)]. *)
Definition is_distribution_package_file (file_path module_name : string) : bool :=
    let absolute_file_path := path_resolve E (pathlib.Path file_path) in
    if existsb (fun path => in_parents (path_resolve E (pathlib.Path path))
                                       absolute_file_path)
               (getsitepackages E ++ [getusersitepackages E])
    then true
    else if opt_truthy (_get_package_for_module module_name) then true
    else false.

  (** [inspect.getfile(module)] for a module object: its [__file__] when
      that is truthy, [TypeError] ([None] here) otherwise. *)
Definition inspect_getfile (m : Module) : option string :=
    if opt_truthy (__file__ m) then __file__ m else None.

  (** [get_source_type(module)]. *)
Definition get_source_type (w : World) (m : Module) : result SourceType :=
    match inspect_getfile m with
    | None => Ok BUILTIN
    | Some file_path =>
        if is_internal_module (__name__ m) then Ok INTERNAL
        else if is_standard_lib_file file_path then Ok BUILTIN
        else
          user <~ is_user_file w file_path ;;
          if user : bool then Ok USER
          else if is_distribution_package_file file_path (__name__ m)
               then Ok DISTRIBUTION_PACKAGE
               else Ok UNKNOWN
    end.

  (** [sys.path.insert(0, path)]. *)
Definition sys_path_insert0 (path : string) : M unit :=
    modify (fun w => count_path_write (set_sys_path (cons path) w)).

  (** [l.remove(x)]: drop the first occurrence, [None] when there is none. *)
Fixpoint list_remove (x : string) (l : list string) : option (list string) :=
    match l with
    | [] => None
    | y :: l' =>
        if String.eqb y x then Some l'
        else match list_remove x l' with
             | Some r => Some (y :: r)
             | None => None
             end
    end.

  (** [sys.path.remove(path)]. *)
Definition sys_path_remove (path : string) : M unit :=
    fun w =>
      match list_remove path (sys_path w) with
      | Some l => (count_path_write (set_sys_path (fun _ => l) w), Ok tt)
      | None => (w, Raise ValueError)
      end.

  (** [with prepend_python_path(path): body]. *)
Definition prepend_python_path {A} (path : string) (body : M A) : M A :=
    try_finally (sys_path_insert0 path ;;; body) (sys_path_remove path).

  (** [importlib.import_module(module_name)]: a module already in
      [sys.modules] is returned as it is; otherwise the finders and the
      module body run under the current search path. *)
Definition import_module (module_name : string) : M Module :=
    fun w =>
      match sys_modules w !! module_name with
      | Some m => (w, Ok m)
      | None =>
          let o := importer E (sys_path w) module_name in
          let w' := set_sys_path (fun _ => imp_sys_path o) w in
          match imp_module o with
          | Ok m => (set_sys_modules (insert module_name m) w', Ok m)
          | Raise e => (w', Raise e)
          end
      end.

  (** [_load_module(module_name, import_root=None)]. *)
Definition _load_module (module_name : string) (import_root : option string)
    : M Module :=
    if opt_truthy import_root then
      prepend_python_path (opt_str import_root) (import_module module_name)
    else
      import_module module_name.

  (** [_warn_about_potential_source_loading_issues(source)]; the argument
      is the validated code-repository descriptor, of which only the
      repository id and the commit are compared. *)
Definition _warn_about_potential_source_loading_issues
             (repository_id commit : string) : M unit :=
    local_repo <- find_active_code_repository None ;;
    match local_repo with
    | None =>
        _ <- reader get_source_root ;;
        modify (log_warning WarnNoActiveRepository)
    | Some local_repo =>
        if negb (String.eqb (code_repository_id local_repo) repository_id) then
          _ <- reader get_source_root ;;
          modify (log_warning WarnDifferentRepository)
        else if negb (String.eqb (current_commit local_repo) commit) then
          modify (log_warning WarnDifferentCommit)
        else if is_dirty local_repo then
          modify (log_warning WarnUncommittedChanges)
        else ret tt
    end.

  (** [_resolve_module(module)]. *)
Definition _resolve_module (w : World) (m : Module) : result string :=
    if negb (opt_truthy (__file__ m)) then
      if String.eqb (__name__ m) "__main__" then
        Raise (RuntimeError NotLoadedFromFile)
      else Ok (__name__ m)
    else
      let module_file := os_path.abspath (getcwd E) (opt_str (__file__ m)) in
      source_root <~ get_source_root w ;;
      let source_root := os_path.abspath (getcwd E) source_root in
      let module_source_path := os_path.relpath (getcwd E) module_file source_root in
      if Str.startswith module_source_path os_path.pardir then
        Raise (RuntimeError OutsideSourceRoot)
      else
        let '(module_source_path, file_extension) :=
          os_path.splitext module_source_path in
        if negb (String.eqb file_extension ".py") then
          Raise (RuntimeError NotAPythonFile)
        else
          Ok (Str.replace os_path.sep_char "."%char module_source_path).

  (** [getattr(module, name)]. *)
Definition getattr (m : Module) (name : string) : result nat :=
    match __dict__ m !! name with
    | Some x => Ok x
    | None => Raise AttributeError
    end.

  (** [load(source)]. *)
Definition load (source : Source + string) : M Loaded :=
    source <- match source with
              | inr import_path => lift (from_import_path E import_path)
              | inl s => ret s
              end ;;
    import_root <-
      match type source with
      | CODE_REPOSITORY =>
          '(repository_id, commit, _) <- lift (CodeRepositorySource_parse_obj source) ;;
          _warn_about_potential_source_loading_issues repository_id commit ;;;
          import_root <- reader get_source_root ;;
          ret (Some import_root)
      | DISTRIBUTION_PACKAGE =>
          '(package_name, version) <- lift (DistributionPackageSource_parse_obj source) ;;
          (if opt_truthy version then
             let current_package_version := _get_package_version package_name in
             if negb (bool_decide (current_package_version = version)) then
               modify (log_warning WarnVersionMismatch)
             else ret tt
           else ret tt) ;;;
          ret None
      | USER | UNKNOWN =>
          import_root <- reader get_source_root ;;
          ret (Some import_root)
      | INTERNAL | BUILTIN => ret None
      end ;;
    module <- _load_module (module source) import_root ;;
    if opt_truthy (attribute source) then
      obj <- lift (getattr module (opt_str (attribute source))) ;;
      ret (LAttr obj)
    else
      ret (LModule module).

  (** [getattr(module, attribute_name, None) is not obj]. *)
Definition getattr_is_not (m : Module) (attribute_name : string) (ident : nat) : bool :=
    negb (bool_decide (__dict__ m !! attribute_name = Some ident)).

Definition id_of (obj : PyObject) : nat :=
    match obj with
    | ObjModule m => mod_id m
    | ObjDef d => oid d
    end.

  (** The user branch of [resolve]: either the code-repository descriptor
      is returned at once ([inl]), or the re-derived module name is carried
      on to the final [Source(...)] ([inr]). *)
Definition resolve_user (m : Module) (attribute_name : option string)
    : M (Source + string) :=
    local_repo_context <- find_active_code_repository None ;;
    match local_repo_context with
    | Some ctx =>
        if negb (has_local_changes ctx) then
          module_name <- reader (fun w => _resolve_module w m) ;;
          source_root <- reader get_source_root ;;
          match pathlib.relative_to (pathlib.Path source_root) (pathlib.Path (root ctx)) with
          | None => raise ValueError
          | Some subdir =>
              ret (inl (CodeRepositorySource (code_repository_id ctx) (current_commit ctx)
                          (pathlib.as_posix subdir) module_name attribute_name))
          end
        else
          module_name <- reader (fun w => _resolve_module w m) ;;
          ret (inr module_name)
    | None =>
        module_name <- reader (fun w => _resolve_module w m) ;;
        ret (inr module_name)
    end.

  (** The branch of [resolve] on the classification, down to the final
    [Source(...)]. *)
Definition resolve_by_type (m : Module) (attribute_name : option string)
           (module_name : string) (source_type : SourceType) : M Source :=
  match source_type with
  | USER =>
      r <- resolve_user m attribute_name ;;
      match r with
      | inl source => ret source
      | inr module_name => ret (PlainSource module_name attribute_name source_type)
      end
  | DISTRIBUTION_PACKAGE =>
      let package_name := _get_package_for_module module_name in
      if opt_truthy package_name then
        let package_version := _get_package_version (opt_str package_name) in
        ret (DistributionPackageSource module_name attribute_name
               (opt_str package_name) package_version source_type)
      else
        ret (PlainSource module_name attribute_name UNKNOWN)
  | _ => ret (PlainSource module_name attribute_name source_type)
  end.

(** The body of [resolve] after the top-level validation: the module
    name, the classification and the branch on it. *)
Definition resolve_in (m : Module) (attribute_name : option string) : M Source :=
  module_name <-
    (if String.eqb (__name__ m) "__main__"
     then reader (fun w => _resolve_module w m)
     else ret (__name__ m)) ;;
  source_type <- reader (fun w => get_source_type w m) ;;
  resolve_by_type m attribute_name module_name source_type.

(** [resolve(obj)]. *)
Definition resolve (obj : PyObject) : M Source :=
  '(m, attribute_name) <-
    match obj with
    | ObjModule m => ret (m, None)
    | ObjDef d =>
        modules <- gets sys_modules ;;
        match modules !! def__module__ d with
        | Some m => ret (m, Some (def__name__ d))
        | None => raise KeyError
        end
    end ;;
  if opt_truthy attribute_name
     && getattr_is_not m (opt_str attribute_name) (id_of obj)
  then raise (RuntimeError NotTopLevel)
  else resolve_in m attribute_name.

End SourceUtils.

(* ===================================================================== *)
(** ** Reference definitions, in the words of the specification *)
(* ===================================================================== *)

(** "First match wins": the tag of the first rule whose condition holds. *)
Fixpoint first_match {A} (rules : list (bool * A)) (otherwise : A) : A :=
  match rules with
  | [] => otherwise
  | (true, a) :: _ => a
  | (false, _) :: rest => first_match rest otherwise
  end.

(** "The file lives under the directory": the location of the file,
    links followed, is inside the location of the directory. *)
Definition lives_under (E : Env) (dir file : string) : bool :=
  in_parents (path_resolve E (pathlib.Path dir)) (path_resolve E (pathlib.Path file)).

(** The classifier's rules 1 to 5 in their stated order; rule 6 is the
    default of [first_match]. *)
Definition classify_rules (E : Env) (source_root : string) (m : Module)
  : list (bool * SourceType) :=
  let file := opt_str (__file__ m) in
  [ (negb (opt_truthy (__file__ m)), BUILTIN);
    (is_internal_module (__name__ m), INTERNAL);
    (lives_under E (stdlib_root E) file, BUILTIN);
    (lives_under E source_root file, USER);
    (existsb (fun d => lives_under E d file)
             (getsitepackages E ++ [getusersitepackages E])
     || opt_truthy (_get_package_for_module E (__name__ m)), DISTRIBUTION_PACKAGE) ].

Definition classify (E : Env) (source_root : string) (m : Module) : SourceType :=
  first_match (classify_rules E source_root m) UNKNOWN.

(** The first candidate that is present. *)
Fixpoint first_available (l : list (option string)) : option string :=
  match l with
  | [] => None
  | Some x :: _ => Some x
  | None :: rest => first_available rest
  end.

(** The three origins of a source root. *)
Definition custom_override (w : World) : option string :=
  if opt_truthy (_CUSTOM_SOURCE_ROOT w) then _CUSTOM_SOURCE_ROOT w else None.

Definition repository_root (E : Env) : option string :=
  match find_repository E with
  | Some r => Some (pathlib.str (path_resolve E r))
  | None => None
  end.

Definition entry_point_parent (E : Env) (w : World) : option string :=
  match sys_modules w !! "__main__" with
  | Some main =>
      if opt_truthy (__file__ main)
      then Some (pathlib.str (pathlib.parent
                   (path_resolve E (pathlib.Path (opt_str (__file__ main))))))
      else None
  | None => None
  end.

Definition source_root_priority (E : Env) (w : World) : option string :=
  first_available [custom_override w; repository_root E; entry_point_parent E w].

(** The error of the entry-point derivation. *)
Definition entry_point_error (w : World) : exn :=
  match sys_modules w !! "__main__" with
  | Some _ => RuntimeError MainModuleWithoutFile
  | None => RuntimeError MainModuleNotFound
  end.

(** The drift conditions (a) to (d) of a code-repository load, each with
    its warning, in their order of precedence. *)
Definition drift_conditions (active : option LocalRepositoryContext)
           (repository_id commit : string) : list (bool * Warning) :=
  [ (bool_decide (active = None :> option LocalRepositoryContext), WarnNoActiveRepository);
    (from_option (fun c => negb (String.eqb (code_repository_id c) repository_id)) false active,
     WarnDifferentRepository);
    (from_option (fun c => negb (String.eqb (current_commit c) commit)) false active,
     WarnDifferentCommit);
    (from_option is_dirty false active, WarnUncommittedChanges) ].

(** The warnings due: the one of the first condition that holds, if any. *)
Definition first_holding (conds : list (bool * Warning)) : list Warning :=
  match filter (fun c => fst c = true) conds with
  | c :: _ => [snd c]
  | [] => []
  end.

(** [obj] is the module [m] itself, or a class or function bound in [m],
    the module registered under the object's [__module__], under the
    object's own name. *)
Inductive defined_in (w : World) : PyObject -> Module -> option string -> Prop :=
| defined_module m : defined_in w (ObjModule m) m None
| defined_attribute d m :
    sys_modules w !! def__module__ d = Some m ->
    __dict__ m !! def__name__ d = Some (oid d) ->
    defined_in w (ObjDef d) m (Some (def__name__ d)).

(** A descriptor of the code-repository variant. *)
Definition is_code_repository_variant (s : Source) : bool :=
  match payload s with
  | CodeRepositoryFields _ _ _ => true
  | _ => false
  end.

(** A run of later lookups, each for its own path argument. *)
Definition run_lookups (E : Env) (paths : list (option string)) (w : World) : World :=
  fold_left (fun w p => fst (find_active_code_repository E p w)) paths w.

(* ===================================================================== *)
(** ** Concrete scenarios *)
(* ===================================================================== *)

(** A file system without symbolic links: resolving a path makes it
    absolute and normal. *)
Definition realpath (cwd : string) (p : pathlib.PurePath) : pathlib.PurePath :=
  pathlib.Path (os_path.abspath cwd (pathlib.str p)).

Definition site_packages : string := "/venv/lib/python3.9/site-packages".

Definition clean_context : LocalRepositoryContext :=
  mkContext "repo-1" "/proj" "abc123" false false.

Definition dirty_context : LocalRepositoryContext :=
  mkContext "repo-1" "/proj" "abc123" true true.

(** A registered repository whose working copy is checked out at [/proj]. *)
Definition origin_repo : BaseCodeRepository :=
  mkRepo "repo-1" (fun p => if String.eqb p "/proj" then Some clean_context else None).

(** What a fresh import of [src.pkg.mod] or of [run] creates: a new module
    object with new function objects. *)
Definition reimported_mod : Module :=
  mkModule 50 "src.pkg.mod" (Some "/proj/src/pkg/mod.py") {[ "f" := 51 ]}.

Definition demo_distributions (top : string) : list string :=
  if String.eqb top "numpy" then ["numpy"]
  else if String.eqb top "google" then ["google-auth"; "google-cloud-storage"]
  else if String.eqb top "nameless" then [""]
  else [].

(** A process started in [/proj], no ZenML repository directory around,
    one virtual environment, one registered code repository. *)
Definition demo_env : Env :=
  {| getcwd := "/proj";
     path_resolve := realpath "/proj";
     find_repository := None;
     stdlib_root := "/usr/lib/python3.9";
     getsitepackages := [site_packages];
     getusersitepackages := "/home/u/.local/lib/python3.9/site-packages";
     packages_distributions := demo_distributions;
     metadata_version := fun n =>
       if String.eqb n "numpy" then VersionIs "1.24.0" else VersionPackageNotFoundError;
     list_code_repositories := ["broken"; "origin"];
     from_model := fun model =>
       if String.eqb model "origin" then Some origin_repo else None;
     importer := fun path name =>
       mkImport (if String.eqb name "src.pkg.mod" then Ok reimported_mod
                 else Raise ImportError) path;
     from_import_path := fun s => Ok (PlainSource s None UNKNOWN) |}.

(** The same machine with the virtual environment inside the project. *)
Definition nested_venv_env : Env :=
  {| getcwd := "/proj";
     path_resolve := realpath "/proj";
     find_repository := None;
     stdlib_root := "/usr/lib/python3.9";
     getsitepackages := ["/proj/venv/lib/python3.9/site-packages"];
     getusersitepackages := "/home/u/.local/lib/python3.9/site-packages";
     packages_distributions := demo_distributions;
     metadata_version := fun _ => VersionPackageNotFoundError;
     list_code_repositories := [];
     from_model := fun _ => None;
     importer := fun path name => mkImport (Raise ImportError) path;
     from_import_path := fun s => Ok (PlainSource s None UNKNOWN) |}.

Definition steps_mod : Module :=
  mkModule 10 "steps" (Some "/proj/steps.py") {[ "trainer" := 11 ]}.

Definition trainer : ClassOrFunction := mkDef 11 "steps" "trainer".

(** [type("", (), {})] evaluated inside [steps]: a class whose name is the
    empty string and which no attribute of the module holds. *)
Definition nameless_class : ClassOrFunction := mkDef 12 "steps" "".

(** The module of a [src]-layout project, imported as [pkg.mod] because
    [/proj/src] is on the search path. *)
Definition pkg_mod : Module :=
  mkModule 20 "pkg.mod" (Some "/proj/src/pkg/mod.py") {[ "f" := 21 ]}.

Definition pkg_f : ClassOrFunction := mkDef 21 "pkg.mod" "f".

(** A compiled extension module of the project. *)
Definition fast_mod : Module :=
  mkModule 30 "fast" (Some "/proj/fast.so") {[ "kernel" := 31 ]}.

Definition kernel : ClassOrFunction := mkDef 31 "fast" "kernel".

Definition numpy_mod : Module :=
  mkModule 40 "numpy" (Some "/venv/lib/python3.9/site-packages/numpy/__init__.py") ∅.

Definition google_mod : Module :=
  mkModule 41 "google.auth"
           (Some "/venv/lib/python3.9/site-packages/google/auth/__init__.py") ∅.

Definition nameless_mod : Module :=
  mkModule 42 "nameless" (Some "/venv/lib/python3.9/site-packages/nameless.py") ∅.

(** The entry-point module of [python -m pytest]. *)
Definition pytest_main : Module :=
  mkModule 43 "__main__" (Some "/venv/lib/python3.9/site-packages/pytest/__main__.py") ∅.

(** The entry-point module of an interactive session. *)
Definition interactive_main : Module := mkModule 44 "__main__" None ∅.

(** The entry-point module of [python ..foo.py] run in [/proj]. *)
Definition dotted_main : Module := mkModule 45 "__main__" (Some "/proj/..foo.py") ∅.

Definition nested_venv_mod : Module :=
  mkModule 46 "vendored" (Some "/proj/venv/lib/python3.9/site-packages/vendored.py") ∅.

Definition demo_modules : gmap string Module :=
  {[ "steps" := steps_mod; "pkg.mod" := pkg_mod; "fast" := fast_mod;
     "numpy" := numpy_mod ]}.

Definition demo_path : list string := ["/proj/src"; "/usr/lib/python3.9"; site_packages].

(** The source root set to [/proj], nothing cached yet. *)
Definition demo_world : World :=
  mkWorld demo_path demo_modules ∅ (Some "/proj") [] 0 0 0.

(** The same with a dirty working copy already cached for [/proj]. *)
Definition dirty_world : World :=
  mkWorld demo_path demo_modules {[ "/proj" := dirty_context ]} (Some "/proj") [] 0 0 0.

(** An interactive session: no override, [__main__] without a file. *)
Definition interactive_world : World :=
  mkWorld demo_path (<[ "__main__" := interactive_main ]> demo_modules) ∅ None [] 0 0 0.

(** [python -m pytest] with the source root set to [/proj]. *)
Definition pytest_world : World :=
  mkWorld demo_path (<[ "__main__" := pytest_main ]> demo_modules) ∅ (Some "/proj") [] 0 0 0.

(* ===================================================================== *)
(** ** Validating loaders (load_and_validate_class, validate_source_class) *)
(* ===================================================================== *)

(** The class structure of the process, over object identities:
    [isinstance(obj, type)] and [issubclass(obj, expected_class)]. *)
Record ClassTable := mkClasses {
  is_class : nat -> bool;
  issubclass : nat -> nat -> bool
}.

(** [isinstance(obj, type) and issubclass(obj, expected_class)]; a module
    object is no class. *)
Definition is_expected_class (C : ClassTable) (obj : Loaded) (expected_class : nat) : bool :=
  match obj with
  | LAttr x => is_class C x && issubclass C x expected_class
  | LModule _ => false
  end.

(** The three ways [load_and_validate_class] ends: it returns the class,
    it raises its own [TypeError], or the exception of [load] passes
    through. *)
Inductive Validated :=
| ValidClass (obj : Loaded)
| RaisesTypeError
| RaisesFromLoad (e : exn).

(** [load_and_validate_class(source, expected_class)]. *)
Definition load_and_validate_class (E : Env) (C : ClassTable) (source : Source + string)
           (expected_class : nat) (w : World) : World * Validated :=
  match load E source w with
  | (w', Ok obj) =>
      if is_expected_class C obj expected_class then (w', ValidClass obj)
      else (w', RaisesTypeError)
  | (w', Raise e) => (w', RaisesFromLoad e)
  end.

(** [validate_source_class(source, expected_class)]. *)
Definition validate_source_class (E : Env) (C : ClassTable) (source : Source + string)
           (expected_class : nat) (w : World) : World * bool :=
  match load E source w with
  | (w', Raise _) => (w', false)
  | (w', Ok obj) =>
      if is_expected_class C obj expected_class then (w', true) else (w', false)
  end.

(** The repositories of the list that can be instantiated, in order. *)
Definition instantiable (E : Env) (models : list string) : list BaseCodeRepository :=
  omap (from_model E) models.

(** The context reported by the first repository that reports one. *)
Fixpoint first_reported (repos : list BaseCodeRepository) (path : string)
  : option LocalRepositoryContext :=
  match repos with
  | [] => None
  | repo :: rest =>
      match get_local_context repo path with
      | Some c => Some c
      | None => first_reported rest path
      end
  end.

(** The number of repositories probed until one reports a context. *)
Fixpoint probed (repos : list BaseCodeRepository) (path : string) : nat :=
  match repos with
  | [] => 0
  | repo :: rest =>
      match get_local_context repo path with
      | Some _ => 1
      | None => S (probed rest path)
      end
  end.

(** The payload of a descriptor fits its classification. *)
Definition well_formed (s : Source) : bool :=
  match type s, payload s with
  | CODE_REPOSITORY, CodeRepositoryFields _ _ _ => true
  | DISTRIBUTION_PACKAGE, DistributionPackageFields _ _ => true
  | (USER | BUILTIN | INTERNAL | UNKNOWN), Plain => true
  | _, _ => false
  end.

(** The attribute name [resolve] records for an object. *)
Definition attribute_of (obj : PyObject) : option string :=
  match obj with
  | ObjModule _ => None
  | ObjDef d => Some (def__name__ d)
  end.

(** What a faithful reload of an object is: the module itself, or the
    object of the same identity. *)
Definition loaded_of (obj : PyObject) : Loaded :=
  match obj with
  | ObjModule m => LModule m
  | ObjDef d => LAttr (oid d)
  end.

(** The source root overridden with [.], the working directory being
    [/proj]. *)
Definition dot_root_world : World :=
  mkWorld demo_path demo_modules ∅ (Some ".") [] 0 0 0.

(** A plugin module that puts its own directory on the search path while
    it is imported. *)
Definition plugin_mod : Module :=
  mkModule 60 "plugin" (Some "/proj/plugin.py") ∅.

Definition plugin_source : Source := PlainSource "plugin" None USER.

(** The machine of [demo_env] with an importer that finds [plugin] and
    whose module body inserts [/x] at the front of the search path. *)
Definition meddling_env : Env :=
  {| getcwd := "/proj";
     path_resolve := realpath "/proj";
     find_repository := None;
     stdlib_root := "/usr/lib/python3.9";
     getsitepackages := [site_packages];
     getusersitepackages := "/home/u/.local/lib/python3.9/site-packages";
     packages_distributions := demo_distributions;
     metadata_version := fun _ => VersionPackageNotFoundError;
     list_code_repositories := [];
     from_model := fun _ => None;
     importer := fun path name =>
       mkImport (if String.eqb name "plugin" then Ok plugin_mod else Raise ImportError)
                ("/x" :: path);
     from_import_path := fun s => Ok (PlainSource s None UNKNOWN) |}.

(** The source root overridden with a relative path. *)
Definition relative_root_world : World :=
  mkWorld demo_path demo_modules ∅ (Some "proj") [] 0 0 0.

(** A class table for the scenarios: object 11 is a class, a subclass of
    class 100; nothing else is a class. *)
Definition demo_classes : ClassTable :=
  mkClasses (fun x => Nat.eqb x 11 || Nat.eqb x 100)
            (fun x c => (Nat.eqb x 11 && Nat.eqb c 100) || Nat.eqb x c).

(** A live context already cached at [/proj]. *)
Definition cached_world : World :=
  mkWorld demo_path demo_modules {[ "/proj" := clean_context ]} (Some "/proj") [] 0 0 0.

(** A descriptor stored from another repository at another commit. *)
Definition drifted_source : Source :=
  CodeRepositorySource "repo-2" "fff" "." "steps" (Some "trainer").

(** Descriptors of the plain kinds. *)
Definition user_source : Source := PlainSource "steps" (Some "trainer") USER.

Definition missing_source : Source := PlainSource "missing" None USER.

Definition builtin_source : Source := PlainSource "numpy" None BUILTIN.

(* ===================================================================== *)
(** ** Frame conditions *)
(* ===================================================================== *)

(** The computation leaves the component [f] of the state as it was,
    whether it returns or raises. *)
Definition keeps {A B} (f : World -> B) (m : M A) : Prop :=
  forall w, f (fst (m w)) = f w.

(** A component of the state that the cache and the collaborator counters
    do not enter. *)
Definition cache_blind {B} (f : World -> B) : Prop :=
  (forall g w, f (set_cache g w) = f w)
  /\ (forall w, f (count_probe w) = f w)
  /\ (forall w, f (count_listing w) = f w).

(** A component of the state that the search path, the module table and
    the write counter do not enter. *)
Definition path_blind {B} (f : World -> B) : Prop :=
  (forall g w, f (set_sys_path g w) = f w)
  /\ (forall g w, f (set_sys_modules g w) = f w)
  /\ (forall w, f (count_path_write w) = f w).

(** A component of the state that the warning log does not enter. *)
Definition log_blind {B} (f : World -> B) : Prop :=
  forall x w, f (log_warning x w) = f w.

(** The state in which the body of [prepend_python_path] starts. *)
Definition prepended (path : string) (w : World) : World :=
  count_path_write (set_sys_path (cons path) w).

(* ===================================================================== *)
(** ** The path functions on examples *)
(* ===================================================================== *)

Example abspath_rel : os_path.abspath "/home/u" "proj/../x/./y.py" = "/home/u/x/y.py".
Proof. reflexivity. Qed.

Example relpath_inside : os_path.relpath "/" "/proj/pkg/mod.py" "/proj" = "pkg/mod.py".
Proof. reflexivity. Qed.

Example relpath_outside : os_path.relpath "/" "/usr/lib/x.py" "/proj/a" = "../../usr/lib/x.py".
Proof. reflexivity. Qed.

Example relpath_same : os_path.relpath "/" "/proj" "/proj/" = ".".
Proof. reflexivity. Qed.

Example splitext_py : os_path.splitext "pkg/mod.py" = ("pkg/mod", ".py").
Proof. reflexivity. Qed.

Example splitext_hidden : os_path.splitext "pkg/.py" = ("pkg/.py", "").
Proof. reflexivity. Qed.

Example splitext_dots : os_path.splitext "..foo.py" = ("..foo", ".py").
Proof. reflexivity. Qed.

Example splitext_dir_dot : os_path.splitext "a.b/c" = ("a.b/c", "").
Proof. reflexivity. Qed.

Example parents_ex :
  pathlib.parents (pathlib.Path "/a/b/c.py")
  = [pathlib.Path "/a/b"; pathlib.Path "/a"; pathlib.Path "/"].
Proof. reflexivity. Qed.

Example relative_to_ex :
  pathlib.as_posix <$> pathlib.relative_to (pathlib.Path "/r/sub/dir") (pathlib.Path "/r")
  = Some "sub/dir".
Proof. reflexivity. Qed.

Example relative_to_self :
  pathlib.as_posix <$> pathlib.relative_to (pathlib.Path "/r") (pathlib.Path "/r/")
  = Some ".".
Proof. reflexivity. Qed.


(* ===================================================================== *)
(** ** Source root (get_source_root, set_custom_source_root) *)
(* ===================================================================== *)

Lemma get_source_root_ext (E : Env) (w w' : World) :
  _CUSTOM_SOURCE_ROOT w' = _CUSTOM_SOURCE_ROOT w ->
  sys_modules w' = sys_modules w ->
  get_source_root E w' = get_source_root E w.
Proof.
  intros Hroot Hmods. unfold get_source_root. now rewrite Hroot, Hmods.
Qed.

Lemma get_source_root_override (E : Env) (w : World) (r : string) :
  _CUSTOM_SOURCE_ROOT w = Some r -> Str.truthy r = true ->
  get_source_root E w = Ok r.
Proof.
  intros Hr Ht. unfold get_source_root. rewrite Hr. simpl. now rewrite Ht.
Qed.

(** C8 (as amended). The source root is the first available of: the
    process-wide override (an empty or absent value counts as not set),
    the resolved repository root, the parent directory of the entry-point
    file; when none is available the derivation raises. The override can
    be set any number of times, the latest value being the one in force,
    and a non-empty override is returned whatever the other two origins
    are. *)
Theorem C8_source_root_priority (E : Env) (w : World) :
  get_source_root E w =
    match source_root_priority E w with
    | Some r => Ok r
    | None => Raise (entry_point_error w)
    end
  /\ (forall a b : option string,
        _CUSTOM_SOURCE_ROOT
          (fst (set_custom_source_root b (fst (set_custom_source_root a w)))) = b)
  /\ (forall r : string,
        get_source_root E (fst (set_custom_source_root (Some r) w)) =
          if Str.truthy r then Ok r
          else get_source_root E (fst (set_custom_source_root None w))).
Proof.
  split; [| split].
  - unfold get_source_root, source_root_priority, custom_override,
      repository_root, entry_point_parent, entry_point_error.
    destruct (opt_truthy (_CUSTOM_SOURCE_ROOT w)) eqn:Hc.
    + destruct (_CUSTOM_SOURCE_ROOT w) as [r|]; [reflexivity | discriminate].
    + simpl. destruct (find_repository E) as [repo|]; [reflexivity|].
      destruct (sys_modules w !! "__main__") as [main|]; [|reflexivity].
      destruct (opt_truthy (__file__ main)); reflexivity.
  - intros a b. reflexivity.
  - intros r. unfold get_source_root, set_custom_source_root, modify. simpl.
    destruct (Str.truthy r); reflexivity.
Qed.

(** C8, counterexample to "settable once": a second call replaces the
    override of the first, and the source root follows it. *)
Lemma C8_override_set_twice :
  let w1 := fst (set_custom_source_root (Some "/a") demo_world) in
  let w2 := fst (set_custom_source_root (Some "/b") w1) in
  get_source_root demo_env w1 = Ok "/a"
  /\ get_source_root demo_env w2 = Ok "/b"
  /\ get_source_root demo_env w2 <> get_source_root demo_env w1.
Proof.
  repeat split; discriminate.
Qed.

Example source_root_of_interactive_session :
  get_source_root demo_env interactive_world = Raise (RuntimeError MainModuleWithoutFile).
Proof. reflexivity. Qed.

(* ===================================================================== *)
(** ** Classifier (get_source_type) *)
(* ===================================================================== *)

Lemma inspect_getfile_truthy (m : Module) :
  opt_truthy (__file__ m) = true ->
  inspect_getfile m = Some (opt_str (__file__ m)).
Proof.
  intros H. unfold inspect_getfile. rewrite H.
  destruct (__file__ m); [reflexivity | discriminate].
Qed.

Lemma inspect_getfile_falsy (m : Module) :
  opt_truthy (__file__ m) = false -> inspect_getfile m = None.
Proof. intros H. unfold inspect_getfile. now rewrite H. Qed.

(** C3 (as amended). The first three rules (no file, framework package,
    standard library) decide in that order without the source root.
    Beyond them, whenever the source root can be determined and is in
    resolved form, the classifier returns exactly one classification, the
    one of the first rule that matches in the order no-file, framework
    package, standard library, under the source root, site-packages or
    owning distribution, else unknown; in particular a module with a file
    that is neither internal nor in the standard library and lies both
    under the source root and under a site-packages directory is
    classified as user. When the first three rules do not decide and the
    source root cannot be derived, the classification fails with the
    error of that derivation. *)
Theorem C3_classify_priority (E : Env) (w : World) (m : Module) :
  (forall source_root,
      get_source_root E w = Ok source_root ->
      path_resolve E (pathlib.Path source_root) = pathlib.Path source_root ->
      get_source_type E w m = Ok (classify E source_root m)
      /\ (forall t, get_source_type E w m = Ok t -> t = classify E source_root m)
      /\ (opt_truthy (__file__ m) = true ->
          is_internal_module (__name__ m) = false ->
          lives_under E (stdlib_root E) (opt_str (__file__ m)) = false ->
          lives_under E source_root (opt_str (__file__ m)) = true ->
          existsb (fun d => lives_under E d (opt_str (__file__ m)))
                  (getsitepackages E ++ [getusersitepackages E]) = true ->
          get_source_type E w m = Ok USER))
  /\ (forall any_root,
        negb (opt_truthy (__file__ m)) || is_internal_module (__name__ m)
        || lives_under E (stdlib_root E) (opt_str (__file__ m)) = true ->
        get_source_type E w m = Ok (classify E any_root m))
  /\ (forall e,
        get_source_root E w = Raise e ->
        opt_truthy (__file__ m) = true ->
        is_internal_module (__name__ m) = false ->
        lives_under E (stdlib_root E) (opt_str (__file__ m)) = false ->
        get_source_type E w m = Raise e).
Proof.
  split; [|split].
  - intros source_root Hroot Hresolved.
    assert (Hmain : get_source_type E w m = Ok (classify E source_root m)).
    { unfold get_source_type, classify, classify_rules, lives_under.
      rewrite Hresolved.
      destruct (opt_truthy (__file__ m)) eqn:Hfile.
      - rewrite (inspect_getfile_truthy m Hfile). simpl.
        destruct (is_internal_module (__name__ m)); [reflexivity|].
        unfold is_standard_lib_file.
        destruct (in_parents (path_resolve E (pathlib.Path (stdlib_root E))) _);
          [reflexivity|].
        unfold is_user_file. rewrite Hroot. simpl.
        destruct (in_parents (pathlib.Path source_root) _); [reflexivity|].
        unfold is_distribution_package_file.
        destruct (existsb _ _); [reflexivity|]. simpl.
        destruct (opt_truthy (_get_package_for_module E (__name__ m))); reflexivity.
      - rewrite (inspect_getfile_falsy m Hfile). reflexivity. }
    split; [exact Hmain | split].
    + intros t Ht. rewrite Hmain in Ht. now inversion Ht.
    + intros Hfile Hint Hstd Huser _. rewrite Hmain.
      unfold classify, classify_rules. simpl.
      now rewrite Hfile, Hint, Hstd, Huser.
  - intros any_root Hrules.
    unfold get_source_type, classify, classify_rules, lives_under in *.
    destruct (opt_truthy (__file__ m)) eqn:Hfile.
    + rewrite (inspect_getfile_truthy m Hfile). simpl in *.
      destruct (is_internal_module (__name__ m)); [reflexivity|].
      unfold is_standard_lib_file.
      destruct (in_parents (path_resolve E (pathlib.Path (stdlib_root E))) _);
        [reflexivity | discriminate].
    + rewrite (inspect_getfile_falsy m Hfile). reflexivity.
  - intros e Hroot Hfile Hint Hstd.
    unfold get_source_type, lives_under in *.
    rewrite (inspect_getfile_truthy m Hfile), Hint.
    unfold is_standard_lib_file. rewrite Hstd.
    unfold is_user_file. now rewrite Hroot.
Qed.

Lemma C3_classify_priority_witness :
  get_source_type nested_venv_env demo_world nested_venv_mod = Ok USER
  /\ get_source_type demo_env interactive_world numpy_mod
     = Raise (RuntimeError MainModuleWithoutFile)
  /\ get_source_type demo_env interactive_world interactive_main = Ok BUILTIN.
Proof.
  split; [|split].
  - apply (proj2 (proj2 (proj1 (C3_classify_priority nested_venv_env demo_world
                                  nested_venv_mod) "/proj" eq_refl eq_refl)));
      reflexivity.
  - apply (proj2 (proj2 (C3_classify_priority demo_env interactive_world numpy_mod))
             (RuntimeError MainModuleWithoutFile)); reflexivity.
  - exact (proj1 (proj2 (C3_classify_priority demo_env interactive_world
                           interactive_main)) "" eq_refl).
Defined.

(** C3, counterexamples. Totality: in an interactive session without an
    override and without a repository, classifying an installed package
    raises the source-root error instead of returning a classification.
    Priority of user code: with the override [.] in the working directory
    [/proj], a module whose file lies under the source root and under a
    site-packages directory is classified as distribution package, because
    the source root is compared as given and not in resolved form. *)
Lemma C3_classify_not_total :
  get_source_type demo_env interactive_world numpy_mod
  = Raise (RuntimeError MainModuleWithoutFile)
  /\ (get_source_root nested_venv_env dot_root_world = Ok "."
      /\ lives_under nested_venv_env "." (opt_str (__file__ nested_venv_mod)) = true
      /\ existsb (fun d => lives_under nested_venv_env d
                             (opt_str (__file__ nested_venv_mod)))
                 (getsitepackages nested_venv_env ++ [getusersitepackages nested_venv_env])
         = true
      /\ get_source_type nested_venv_env dot_root_world nested_venv_mod
         = Ok DISTRIBUTION_PACKAGE).
Proof. repeat split. Qed.

Example classify_examples :
  get_source_type demo_env demo_world steps_mod = Ok USER
  /\ get_source_type demo_env demo_world numpy_mod = Ok DISTRIBUTION_PACKAGE
  /\ get_source_type demo_env demo_world interactive_main = Ok BUILTIN
  /\ get_source_type demo_env interactive_world interactive_main = Ok BUILTIN
  /\ get_source_type demo_env demo_world
       (mkModule 1 "zenml.steps" (Some "/proj/zenml/steps.py") ∅) = Ok INTERNAL
  /\ get_source_type demo_env demo_world
       (mkModule 2 "json" (Some "/usr/lib/python3.9/json/__init__.py") ∅) = Ok BUILTIN
  /\ get_source_type demo_env demo_world
       (mkModule 3 "editable" (Some "/home/u/dev/editable/__init__.py") ∅) = Ok UNKNOWN.
Proof. repeat split. Qed.

(* ===================================================================== *)
(** ** Module-path re-derivation (_resolve_module) *)
(* ===================================================================== *)

Lemma commonprefix_len_le (a b : list string) :
  os_path.commonprefix_len a b <= length a.
Proof.
  revert b. induction a as [|x a IH]; intros [|y b]; simpl; try lia.
  destruct (String.eqb x y); [specialize (IH b) |]; lia.
Qed.

Lemma commonprefix_len_not_prefix (a b : list string) :
  pathlib.is_prefix a b = false -> os_path.commonprefix_len a b < length a.
Proof.
  revert b. induction a as [|x a IH]; intros [|y b]; simpl; try discriminate; try lia.
  destruct (String.eqb x y); simpl; [|lia].
  intros H. specialize (IH b H). lia.
Qed.

Lemma join_pardir_startswith (rest : list string) :
  Str.startswith (Str.join os_path.sep (os_path.pardir :: rest)) os_path.pardir = true.
Proof. destruct rest; reflexivity. Qed.

(** A path whose components do not extend those of [start] has a relative
    path that begins with the parent-directory marker. *)
Lemma relpath_not_under (cwd path start : string) :
  pathlib.is_prefix (os_path.nonempty_comps (os_path.abspath cwd start))
                    (os_path.nonempty_comps (os_path.abspath cwd path)) = false ->
  Str.startswith (os_path.relpath cwd path start) os_path.pardir = true.
Proof.
  intros Hout. unfold os_path.relpath.
  set (start_list := os_path.nonempty_comps (os_path.abspath cwd start)) in *.
  set (path_list := os_path.nonempty_comps (os_path.abspath cwd path)) in *.
  pose proof (commonprefix_len_not_prefix _ _ Hout) as Hlt.
  destruct (length start_list - os_path.commonprefix_len start_list path_list)
    as [|k] eqn:Hk; [lia|].
  simpl repeat. simpl app.
  apply join_pardir_startswith.
Qed.

(** Without a backing file the bare name is returned, except for the
    entry-point module, which fails. *)
Lemma _resolve_module_without_file (E : Env) (w : World) (m : Module) :
  opt_truthy (__file__ m) = false ->
  _resolve_module E w m =
    if String.eqb (__name__ m) "__main__"
    then Raise (RuntimeError NotLoadedFromFile)
    else Ok (__name__ m).
Proof. intros H. unfold _resolve_module. now rewrite H. Qed.

(** A backing file outside the source root makes the derivation fail. *)
Lemma _resolve_module_outside_source_root (E : Env) (w : World) (m : Module) (sr : string) :
  opt_truthy (__file__ m) = true ->
  get_source_root E w = Ok sr ->
  pathlib.is_prefix
    (os_path.nonempty_comps
       (os_path.abspath (getcwd E) (os_path.abspath (getcwd E) sr)))
    (os_path.nonempty_comps
       (os_path.abspath (getcwd E)
          (os_path.abspath (getcwd E) (opt_str (__file__ m))))) = false ->
  _resolve_module E w m = Raise (RuntimeError OutsideSourceRoot).
Proof.
  intros Hfile Hroot Hout. unfold _resolve_module.
  rewrite Hfile, Hroot. simpl.
  now rewrite (relpath_not_under _ _ _ Hout).
Qed.

(** A backing file whose relative path does not begin with two dots is
    resolved by stripping the [.py] extension and dotting the separators;
    any other extension fails. *)
Lemma _resolve_module_inside_source_root (E : Env) (w : World) (m : Module) (sr : string) :
  opt_truthy (__file__ m) = true ->
  get_source_root E w = Ok sr ->
  let rel := os_path.relpath (getcwd E)
               (os_path.abspath (getcwd E) (opt_str (__file__ m)))
               (os_path.abspath (getcwd E) sr) in
  Str.startswith rel os_path.pardir = false ->
  _resolve_module E w m =
    if String.eqb (snd (os_path.splitext rel)) ".py"
    then Ok (Str.replace os_path.sep_char "."%char (fst (os_path.splitext rel)))
    else Raise (RuntimeError NotAPythonFile).
Proof.
  intros Hfile Hroot rel Hin. unfold _resolve_module.
  rewrite Hfile, Hroot. simpl. fold rel. rewrite Hin.
  destruct (os_path.splitext rel) as [p ext]. simpl.
  destruct (String.eqb ext ".py"); reflexivity.
Qed.

Example _resolve_module_examples :
  _resolve_module demo_env demo_world steps_mod = Ok "steps"
  /\ _resolve_module demo_env demo_world pkg_mod = Ok "src.pkg.mod"
  /\ _resolve_module demo_env demo_world fast_mod = Raise (RuntimeError NotAPythonFile)
  /\ _resolve_module demo_env demo_world numpy_mod = Raise (RuntimeError OutsideSourceRoot)
  /\ _resolve_module demo_env demo_world interactive_main
     = Raise (RuntimeError NotLoadedFromFile)
  /\ _resolve_module demo_env demo_world (mkModule 1 "builtins" None ∅) = Ok "builtins".
Proof. repeat split. Qed.

(** C9, the failing input. The script [/proj/..foo.py] lies in the source
    root [/proj] and carries the source-file extension, so its relative
    path minus extension is ["..foo"]; the derivation nevertheless fails
    with the outside-the-source-root error, because the test for "outside"
    is a string-prefix test on the relative path. *)
Theorem C9_resolve_module_dotted_name :
  in_parents (pathlib.Path "/proj")
             (path_resolve demo_env (pathlib.Path (opt_str (__file__ dotted_main)))) = true
  /\ os_path.splitext (os_path.relpath "/proj" "/proj/..foo.py" "/proj") = ("..foo", ".py")
  /\ _resolve_module demo_env demo_world dotted_main
     = Raise (RuntimeError OutsideSourceRoot).
Proof. repeat split. Qed.

(* ===================================================================== *)
(** ** Resolver: top-level validation *)
(* ===================================================================== *)

(** An object with a non-empty name that its module does not hold under
    that name is rejected, and nothing else happens. *)
Lemma resolve_rejects_unreachable (E : Env) (w : World) (d : ClassOrFunction) (m : Module) :
  sys_modules w !! def__module__ d = Some m ->
  Str.truthy (def__name__ d) = true ->
  __dict__ m !! def__name__ d <> Some (oid d) ->
  resolve E (ObjDef d) w = (w, Raise (RuntimeError NotTopLevel)).
Proof.
  intros Hm Hname Hne. unfold resolve, bind, gets. rewrite Hm. simpl.
  rewrite Hname. unfold getattr_is_not. simpl.
  rewrite bool_decide_eq_false_2 by exact Hne. reflexivity.
Qed.

(** C2, the failing input. A class created with an empty name inside
    [steps] is not held by any attribute of that module, yet [resolve]
    skips the top-level validation (the name is falsy) and returns a
    descriptor; loading that descriptor yields the module, not the class. *)
Theorem C2_resolve_nameless_class :
  __dict__ steps_mod !! def__name__ nameless_class = None
  /\ snd (resolve demo_env (ObjDef nameless_class) demo_world)
     = Ok (CodeRepositorySource "repo-1" "abc123" "." "steps" (Some ""))
  /\ snd (load demo_env
            (inl (CodeRepositorySource "repo-1" "abc123" "." "steps" (Some "")))
            (fst (resolve demo_env (ObjDef nameless_class) demo_world)))
     = Ok (LModule steps_mod).
Proof. repeat split; vm_compute; reflexivity. Qed.

(* ===================================================================== *)
(** ** Frame lemmas for the monadic code *)
(* ===================================================================== *)

Ltac unfold_monad :=
  unfold bind, ret, raise, lift, reader, gets, modify in *.

Lemma keeps_ret {A B} (f : World -> B) (a : A) : keeps f (ret a).
Proof. intros w. reflexivity. Qed.

Lemma keeps_raise {A B} (f : World -> B) (e : exn) : keeps f (raise (A:=A) e).
Proof. intros w. reflexivity. Qed.

Lemma keeps_lift {A B} (f : World -> B) (r : result A) : keeps f (lift r).
Proof. intros w. reflexivity. Qed.

Lemma keeps_reader {A B} (f : World -> B) (g : World -> result A) : keeps f (reader g).
Proof. intros w. reflexivity. Qed.

Lemma keeps_gets {A B} (f : World -> B) (g : World -> A) : keeps f (gets g).
Proof. intros w. reflexivity. Qed.

Lemma keeps_modify {B} (f : World -> B) (g : World -> World) :
  (forall w, f (g w) = f w) -> keeps f (modify g).
Proof. intros H w. apply H. Qed.

Lemma keeps_bind {A A' B} (f : World -> B) (m : M A) (k : A -> M A') :
  keeps f m -> (forall a, keeps f (k a)) -> keeps f (bind m k).
Proof.
  intros Hm Hk w. unfold bind. specialize (Hm w).
  destruct (m w) as [w' [a|e]]; simpl in *.
  - now rewrite Hk.
  - exact Hm.
Qed.

Create HintDb keeps.
#[local] Hint Resolve keeps_ret keeps_raise keeps_lift keeps_reader keeps_gets : keeps.

Lemma cache_blind_sys_path : cache_blind sys_path.
Proof. repeat split. Qed.

Lemma cache_blind_sys_modules : cache_blind sys_modules.
Proof. repeat split. Qed.

Lemma cache_blind_custom_root : cache_blind _CUSTOM_SOURCE_ROOT.
Proof. repeat split. Qed.

Lemma cache_blind_warning_log : cache_blind warning_log.
Proof. repeat split. Qed.

Lemma cache_blind_sys_path_writes : cache_blind sys_path_writes.
Proof. repeat split. Qed.

#[local] Hint Resolve cache_blind_sys_path cache_blind_sys_modules
  cache_blind_custom_root cache_blind_warning_log cache_blind_sys_path_writes : keeps.

Lemma scan_keeps {B} (E : Env) (f : World -> B) (path : string) (models : list string) :
  cache_blind f -> keeps f (scan_code_repositories E path models).
Proof.
  intros (Hcache & Hprobe & Hlist).
  induction models as [|model rest IH]; simpl.
  - apply keeps_ret.
  - destruct (from_model E model) as [repo|]; [|exact IH].
    apply keeps_bind; [apply keeps_modify, Hprobe|]. intros _.
    destruct (get_local_context repo path); [|exact IH].
    apply keeps_bind; [apply keeps_modify, Hcache|]. intros _. apply keeps_ret.
Qed.

Lemma find_keeps {B} (E : Env) (f : World -> B) (path : option string) :
  cache_blind f -> keeps f (find_active_code_repository E path).
Proof.
  intros Hf. unfold find_active_code_repository.
  apply keeps_bind.
  - destruct (opt_truthy path); auto with keeps.
  - intros p. apply keeps_bind; [apply keeps_gets|]. intros cache.
    destruct (cache !! _); [apply keeps_ret|].
    apply keeps_bind; [apply keeps_modify, Hf | intros _; now apply scan_keeps].
Qed.

(** A lookup never fails once the path is known. *)
Lemma scan_returns (E : Env) (path : string) (models : list string) (w : World) :
  exists active, snd (scan_code_repositories E path models w) = Ok active.
Proof.
  revert w. induction models as [|model rest IH]; intros w; simpl.
  - now exists None.
  - destruct (from_model E model) as [repo|]; [|apply IH].
    unfold_monad. destruct (get_local_context repo path) as [c|].
    + now exists (Some c).
    + apply IH.
Qed.

Lemma find_default_returns (E : Env) (w : World) (sr : string) :
  get_source_root E w = Ok sr ->
  exists active, snd (find_active_code_repository E None w) = Ok active.
Proof.
  intros Hroot. unfold find_active_code_repository. unfold_monad. simpl.
  rewrite Hroot.
  destruct (_CODE_REPOSITORY_CACHE w !! _) as [c|].
  - now exists (Some c).
  - apply scan_returns.
Qed.

Lemma find_default_needs_root (E : Env) (w w1 : World) (active : option LocalRepositoryContext) :
  find_active_code_repository E None w = (w1, Ok active) ->
  exists sr, get_source_root E w = Ok sr.
Proof.
  unfold find_active_code_repository. unfold_monad. simpl.
  destruct (get_source_root E w) as [sr|e]; [eauto | discriminate].
Qed.

Lemma find_default_raises (E : Env) (w : World) (e : exn) :
  get_source_root E w = Raise e ->
  find_active_code_repository E None w = (w, Raise e).
Proof.
  intros Hroot. unfold find_active_code_repository. unfold_monad. simpl.
  now rewrite Hroot.
Qed.

(** After a lookup the source root is what it was before. *)
Lemma find_keeps_source_root (E : Env) (path : option string) (w : World) :
  get_source_root E (fst (find_active_code_repository E path w)) = get_source_root E w.
Proof.
  apply get_source_root_ext; apply find_keeps; auto with keeps.
Qed.

Lemma get_source_root_truthy (E : Env) (w : World) (sr : string) :
  get_source_root E w = Ok sr -> Str.truthy sr = true.
Proof.
  assert (Hstr : forall p, Str.truthy (pathlib.str p) = true).
  { intros p. unfold pathlib.str.
    destruct (Str.truthy (pathlib.anchor p +:+ _)) eqn:H; [exact H | reflexivity]. }
  unfold get_source_root.
  destruct (opt_truthy (_CUSTOM_SOURCE_ROOT w)) eqn:Hc.
  - destruct (_CUSTOM_SOURCE_ROOT w); [|discriminate]. intros [= <-]. exact Hc.
  - destruct (find_repository E); [intros [= <-]; apply Hstr|].
    destruct (sys_modules w !! "__main__") as [main|]; [|discriminate].
    destruct (negb _); [discriminate|]. intros [= <-]. apply Hstr.
Qed.

Lemma keeps_try_finally {A B} (f : World -> B) (body : M A) (fin : M unit) :
  keeps f body -> keeps f fin -> keeps f (try_finally body fin).
Proof.
  intros Hb Hf w. unfold try_finally. specialize (Hb w).
  destruct (body w) as [w1 r]. specialize (Hf w1).
  destruct (fin w1) as [w2 [u|e]]; simpl in *; congruence.
Qed.

Lemma import_module_keeps {B} (E : Env) (f : World -> B) (name : string) :
  path_blind f -> keeps f (import_module E name).
Proof.
  intros (Hpath & Hmods & _) w. unfold import_module.
  destruct (sys_modules w !! name); [reflexivity|].
  destruct (imp_module _); simpl; [rewrite Hmods|]; apply Hpath.
Qed.

Lemma sys_path_remove_keeps {B} (f : World -> B) (path : string) :
  path_blind f -> keeps f (sys_path_remove path).
Proof.
  intros (Hpath & _ & Hcount) w. unfold sys_path_remove.
  destruct (list_remove path (sys_path w)); simpl; [|reflexivity].
  now rewrite Hcount, Hpath.
Qed.

Lemma _load_module_keeps {B} (E : Env) (f : World -> B) (name : string)
      (import_root : option string) :
  path_blind f -> keeps f (_load_module E name import_root).
Proof.
  intros Hf. unfold _load_module, prepend_python_path.
  destruct (opt_truthy import_root); [|now apply import_module_keeps].
  apply keeps_try_finally; [|now apply sys_path_remove_keeps].
  apply keeps_bind; [|intros _; now apply import_module_keeps].
  apply keeps_modify. intros w. destruct Hf as (Hpath & _ & Hcount).
  unfold sys_path_insert0. now rewrite Hcount, Hpath.
Qed.

Lemma path_blind_warning_log : path_blind warning_log.
Proof. repeat split. Qed.

Lemma path_blind_custom_root : path_blind _CUSTOM_SOURCE_ROOT.
Proof. repeat split. Qed.

Lemma path_blind_cache : path_blind _CODE_REPOSITORY_CACHE.
Proof. repeat split. Qed.

Lemma log_blind_sys_path : log_blind sys_path.
Proof. intros x w. reflexivity. Qed.

Lemma log_blind_sys_path_writes : log_blind sys_path_writes.
Proof. intros x w. reflexivity. Qed.

Lemma log_blind_sys_modules : log_blind sys_modules.
Proof. intros x w. reflexivity. Qed.

Lemma log_blind_custom_root : log_blind _CUSTOM_SOURCE_ROOT.
Proof. intros x w. reflexivity. Qed.

#[local] Hint Resolve path_blind_warning_log path_blind_custom_root path_blind_cache
  log_blind_sys_path log_blind_sys_path_writes log_blind_sys_modules
  log_blind_custom_root : keeps.

(* ===================================================================== *)
(** ** Drift warnings of a code-repository load *)
(* ===================================================================== *)

Lemma first_holding_length (conds : list (bool * Warning)) :
  length (first_holding conds) <= 1.
Proof.
  unfold first_holding. destruct (filter _ conds); simpl; lia.
Qed.

Lemma warn_keeps {B} (E : Env) (f : World -> B) (repository_id commit : string) :
  cache_blind f -> log_blind f ->
  keeps f (_warn_about_potential_source_loading_issues E repository_id commit).
Proof.
  intros Hc Hl. unfold _warn_about_potential_source_loading_issues.
  apply keeps_bind; [now apply find_keeps|]. intros [ctx|].
  - repeat match goal with
           | |- keeps _ (if ?b then _ else _) => destruct b
           | |- keeps _ (bind _ _) => apply keeps_bind; [|intros ?]
           | |- keeps _ (modify (log_warning _)) => apply keeps_modify, Hl
           | |- _ => solve [auto with keeps]
           end.
  - apply keeps_bind; [auto with keeps|]. intros _. apply keeps_modify, Hl.
Qed.

(** When the lookup fails (no source root), the warning step fails with
    it and logs nothing. *)
Lemma warn_raises (E : Env) (repository_id commit : string) (w w1 : World) (e : exn) :
  find_active_code_repository E None w = (w1, Raise e) ->
  _warn_about_potential_source_loading_issues E repository_id commit w = (w1, Raise e).
Proof.
  intros Hfind. unfold _warn_about_potential_source_loading_issues, bind.
  now rewrite Hfind.
Qed.

(** When the lookup returns, the warning step returns too, and logs the
    warning of the first drift condition that holds. *)
Lemma warn_logs_first_holding (E : Env) (repository_id commit : string)
      (w w1 : World) (active : option LocalRepositoryContext) :
  find_active_code_repository E None w = (w1, Ok active) ->
  snd (_warn_about_potential_source_loading_issues E repository_id commit w) = Ok tt
  /\ warning_log (fst (_warn_about_potential_source_loading_issues E repository_id commit w))
     = warning_log w ++ first_holding (drift_conditions active repository_id commit).
Proof.
  intros Hfind.
  destruct (find_default_needs_root _ _ _ _ Hfind) as [sr Hroot].
  pose proof (find_keeps_source_root E None w) as Hroot1.
  pose proof (find_keeps E warning_log None cache_blind_warning_log w) as Hlog1.
  rewrite Hfind in Hroot1, Hlog1. simpl in Hroot1, Hlog1. rewrite Hroot in Hroot1.
  unfold _warn_about_potential_source_loading_issues, bind. rewrite Hfind.
  unfold first_holding, drift_conditions.
  destruct active as [ctx|]; simpl.
  - destruct (String.eqb (code_repository_id ctx) repository_id); simpl.
    + destruct (String.eqb (current_commit ctx) commit); simpl.
      * destruct (is_dirty ctx); simpl; unfold_monad; simpl;
          rewrite Hlog1; split; try reflexivity.
        now rewrite app_nil_r.
      * unfold_monad. simpl. now rewrite Hlog1.
    + unfold_monad. rewrite Hroot1. simpl. now rewrite Hlog1.
  - unfold_monad. rewrite Hroot1. simpl. now rewrite Hlog1.
Qed.

(** The shape of a code-repository load once the descriptor validates. *)
Lemma load_code_repository (E : Env) (s : Source) (w : World)
      (repository_id commit subdirectory : string) :
  type s = CODE_REPOSITORY ->
  payload s = CodeRepositoryFields repository_id commit subdirectory ->
  load E (inl s) w =
    bind (_warn_about_potential_source_loading_issues E repository_id commit)
      (fun _ => bind (reader (get_source_root E))
         (fun import_root => bind (_load_module E (module s) (Some import_root))
            (fun m => if opt_truthy (attribute s)
                      then bind (lift (getattr m (opt_str (attribute s))))
                                (fun obj => ret (LAttr obj))
                      else ret (LModule m)))) w.
Proof.
  intros Htype Hpayload. unfold load.
  change (bind (ret s) ?k w) with (k s w). cbv beta.
  rewrite Htype. unfold CodeRepositorySource_parse_obj. rewrite Hpayload.
  unfold bind, lift, reader, ret.
  destruct (_warn_about_potential_source_loading_issues E repository_id commit w)
    as [w1 [[]|e]]; [|reflexivity].
  destruct (get_source_root E w1); reflexivity.
Qed.

(** A code-repository descriptor that fails validation is not loaded. *)
Lemma load_code_repository_invalid (E : Env) (s : Source) (w : World) (e : exn) :
  type s = CODE_REPOSITORY ->
  CodeRepositorySource_parse_obj s = Raise e ->
  load E (inl s) w = (w, Raise e).
Proof.
  intros Htype Hparse. unfold load.
  change (bind (ret s) ?k w) with (k s w). cbv beta.
  rewrite Htype, Hparse. reflexivity.
Qed.

Lemma load_tail_keeps {B} (E : Env) (f : World -> B) (s : Source) (import_root : option string) :
  path_blind f ->
  keeps f (bind (_load_module E (module s) import_root)
             (fun m => if opt_truthy (attribute s)
                       then bind (lift (getattr m (opt_str (attribute s))))
                                 (fun obj => ret (LAttr obj))
                       else ret (LModule m))).
Proof.
  intros Hf. apply keeps_bind; [now apply _load_module_keeps|]. intros m.
  destruct (opt_truthy (attribute s)); [|apply keeps_ret].
  apply keeps_bind; [apply keeps_lift | intros ?; apply keeps_ret].
Qed.

(** C10. A load of a code-repository descriptor appends at most one
    warning to the log; when the descriptor validates and the lookup of
    the active repository returns, the warning appended is the one of the
    first condition that holds in the order no active repository,
    different repository, different commit, uncommitted changes, and none
    if no condition holds. *)
Theorem C10_at_most_one_drift_warning (E : Env) (s : Source) (w : World) :
  type s = CODE_REPOSITORY ->
  (exists ws, warning_log (fst (load E (inl s) w)) = warning_log w ++ ws
              /\ length ws <= 1)
  /\ (forall repository_id commit subdirectory w1 active,
        payload s = CodeRepositoryFields repository_id commit subdirectory ->
        find_active_code_repository E None w = (w1, Ok active) ->
        warning_log (fst (load E (inl s) w))
        = warning_log w ++ first_holding (drift_conditions active repository_id commit)).
Proof.
  intros Htype.
  assert (Hspec : forall repository_id commit subdirectory w1 active,
             payload s = CodeRepositoryFields repository_id commit subdirectory ->
             find_active_code_repository E None w = (w1, Ok active) ->
             warning_log (fst (load E (inl s) w))
             = warning_log w ++ first_holding (drift_conditions active repository_id commit)).
  { intros rid c d w1 active Hpayload Hfind.
    rewrite (load_code_repository E s w rid c d Htype Hpayload).
    destruct (warn_logs_first_holding E rid c w w1 active Hfind) as [Hok Hlog].
    unfold bind at 1.
    destruct (_warn_about_potential_source_loading_issues E rid c w) as [w2 r].
    simpl in Hok, Hlog. subst r. rewrite <- Hlog.
    unfold bind at 1, reader.
    destruct (get_source_root E w2) as [sr|e]; [|reflexivity].
    apply (load_tail_keeps E warning_log s (Some sr) path_blind_warning_log). }
  split; [|exact Hspec].
  destruct (payload s) as [|rid c d|p v] eqn:Hpayload.
  - exists []. rewrite app_nil_r. split; [|simpl; lia].
    rewrite (load_code_repository_invalid E s w ValidationError Htype); [reflexivity|].
    unfold CodeRepositorySource_parse_obj. now rewrite Hpayload.
  - destruct (find_active_code_repository E None w) as [w1 [active|e]] eqn:Hfind.
    + eexists. split; [apply (Hspec rid c d w1 active eq_refl eq_refl)|].
      apply first_holding_length.
    + exists []. rewrite app_nil_r. split; [|simpl; lia].
      rewrite (load_code_repository E s w rid c d Htype Hpayload).
      unfold bind at 1. rewrite (warn_raises E rid c w w1 e Hfind). simpl.
      pose proof (find_keeps E warning_log None cache_blind_warning_log w) as H.
      now rewrite Hfind in H.
  - exists []. rewrite app_nil_r. split; [|simpl; lia].
    rewrite (load_code_repository_invalid E s w ValidationError Htype); [reflexivity|].
    unfold CodeRepositorySource_parse_obj. now rewrite Hpayload.
Qed.

Lemma C10_at_most_one_drift_warning_witness :
  warning_log (fst (load demo_env (inl drifted_source) dirty_world))
  = [WarnDifferentRepository].
Proof.
  exact (proj2 (C10_at_most_one_drift_warning demo_env drifted_source dirty_world eq_refl)
               "repo-2" "fff" "." dirty_world (Some dirty_context) eq_refl eq_refl).
Defined.

Example drift_warning_examples :
  warning_log (fst (load demo_env (inl drifted_source) pytest_world))
  = [WarnDifferentRepository]
  /\ warning_log (fst (load demo_env
                         (inl (CodeRepositorySource "repo-1" "fff" "." "steps" None))
                         dirty_world))
     = [WarnDifferentCommit]
  /\ warning_log (fst (load demo_env
                         (inl (CodeRepositorySource "repo-1" "abc123" "." "steps" None))
                         dirty_world))
     = [WarnUncommittedChanges]
  /\ warning_log (fst (load demo_env
                         (inl (CodeRepositorySource "repo-1" "abc123" "." "steps" None))
                         demo_world))
     = []
  /\ warning_log (fst (load nested_venv_env (inl drifted_source) demo_world))
     = [WarnNoActiveRepository].
Proof. repeat split; vm_compute; reflexivity. Qed.

(* ===================================================================== *)
(** ** Search-path cleanup of the loader *)
(* ===================================================================== *)

Lemma list_remove_head (x : string) (l : list string) :
  list_remove x (x :: l) = Some l.
Proof. simpl. now rewrite String.eqb_refl. Qed.

Section PathCleanup.

Context (E : Env).

(** The code that an import executes leaves the search path as it found
    it. *)
Hypothesis import_keeps_path :
  forall path name, imp_sys_path (importer E path name) = path.

Lemma import_module_keeps_sys_path (name : string) :
  keeps sys_path (import_module E name).
Proof.
  intros w. unfold import_module.
  destruct (sys_modules w !! name); [reflexivity|].
  destruct (imp_module _); simpl; apply import_keeps_path.
Qed.

Lemma import_module_keeps_writes (name : string) :
  keeps sys_path_writes (import_module E name).
Proof.
  intros w. unfold import_module.
  destruct (sys_modules w !! name); [reflexivity|].
  destruct (imp_module _); reflexivity.
Qed.

(** With an import root, the module is imported in the prepended state
    and the root is taken off again, whatever the import did: the path is
    back, after exactly two writes. *)
Lemma _load_module_prepended (name root : string) (w : World) :
  Str.truthy root = true ->
  let w' := fst (_load_module E name (Some root) w) in
  snd (_load_module E name (Some root) w) = snd (import_module E name (prepended root w))
  /\ sys_path w' = sys_path w
  /\ sys_path_writes w' = S (S (sys_path_writes w)).
Proof.
  intros Hroot. unfold _load_module. simpl. rewrite Hroot.
  unfold prepend_python_path, try_finally, bind, sys_path_insert0, modify.
  fold (prepended root w).
  pose proof (import_module_keeps_sys_path name (prepended root w)) as Hpath.
  pose proof (import_module_keeps_writes name (prepended root w)) as Hwrites.
  destruct (import_module E name (prepended root w)) as [w1 r].
  simpl in Hpath, Hwrites.
  assert (Hremove : sys_path_remove root w1
                    = (count_path_write (set_sys_path (fun _ => sys_path w) w1), Ok tt)).
  { unfold sys_path_remove. rewrite Hpath. now rewrite list_remove_head. }
  destruct r as [m|e]; rewrite Hremove; simpl; rewrite Hwrites; auto.
Qed.

Lemma _load_module_keeps_sys_path (name : string) (import_root : option string) :
  keeps sys_path (_load_module E name import_root).
Proof.
  intros w. destruct (opt_truthy import_root) eqn:Hroot.
  - destruct import_root as [root|]; [|discriminate].
    apply (_load_module_prepended name root w Hroot).
  - unfold _load_module. rewrite Hroot. apply import_module_keeps_sys_path.
Qed.

Lemma load_keeps_sys_path (source : Source + string) :
  keeps sys_path (load E source).
Proof.
  unfold load. apply keeps_bind.
  { destruct source; auto with keeps. }
  intros s. apply keeps_bind.
  - destruct (type s).
    + apply keeps_bind; auto with keeps.
    + apply keeps_ret.
    + apply keeps_ret.
    + apply keeps_bind; [apply keeps_lift|]. intros [p v].
      apply keeps_bind; [|auto with keeps].
      destruct (opt_truthy v); [|apply keeps_ret].
      destruct (negb _); [|apply keeps_ret].
      apply keeps_modify. intros w. reflexivity.
    + apply keeps_bind; [apply keeps_lift|]. intros [[r c] d].
      apply keeps_bind; [apply warn_keeps; auto with keeps|]. intros _.
      apply keeps_bind; auto with keeps.
    + apply keeps_bind; auto with keeps.
  - intros import_root. apply keeps_bind.
    + apply _load_module_keeps_sys_path.
    + intros m. destruct (opt_truthy (attribute s)); [|apply keeps_ret].
      apply keeps_bind; auto with keeps.
Qed.

Lemma load_without_root_keeps_writes (s : Source) (w : World) :
  type s = INTERNAL \/ type s = BUILTIN ->
  sys_path_writes (fst (load E (inl s) w)) = sys_path_writes w.
Proof.
  intros Htype. unfold load.
  change (bind (ret s) ?k w) with (k s w). cbv beta.
  assert (Hroot : (match type s with
                   | CODE_REPOSITORY =>
                       bind (lift (CodeRepositorySource_parse_obj s))
                         (fun x => let '(repository_id, commit, _) := x in
                            bind (_warn_about_potential_source_loading_issues E repository_id commit)
                              (fun _ => bind (reader (get_source_root E))
                                 (fun import_root => ret (Some import_root))))
                   | DISTRIBUTION_PACKAGE =>
                       bind (lift (DistributionPackageSource_parse_obj s))
                         (fun x => let '(package_name, version) := x in
                            bind (if opt_truthy version
                                  then if negb (bool_decide
                                                  (_get_package_version E package_name = version))
                                       then modify (log_warning WarnVersionMismatch)
                                       else ret tt
                                  else ret tt)
                              (fun _ => ret None))
                   | USER | UNKNOWN =>
                       bind (reader (get_source_root E))
                         (fun import_root => ret (Some import_root))
                   | INTERNAL | BUILTIN => ret None
                   end) = ret None).
  { destruct Htype as [-> | ->]; reflexivity. }
  rewrite Hroot. change (bind (ret None) ?k w) with (k None w). cbv beta.
  apply (keeps_bind sys_path_writes).
  - unfold _load_module. simpl. apply import_module_keeps_writes.
  - intros m. destruct (opt_truthy (attribute s)); [|apply keeps_ret].
    apply keeps_bind; auto with keeps.
Qed.

End PathCleanup.

(** The shape of a user or unknown load once the source root is known. *)
Lemma load_with_root (E : Env) (s : Source) (w : World) (sr : string) :
  type s = USER \/ type s = UNKNOWN ->
  get_source_root E w = Ok sr ->
  load E (inl s) w =
    bind (_load_module E (module s) (Some sr))
      (fun m => if opt_truthy (attribute s)
                then bind (lift (getattr m (opt_str (attribute s))))
                          (fun obj => ret (LAttr obj))
                else ret (LModule m)) w.
Proof.
  intros Htype Hroot. unfold load.
  change (bind (ret s) ?k w) with (k s w). cbv beta.
  destruct Htype as [Ht|Ht]; rewrite Ht;
    unfold bind at 1; unfold bind at 1; unfold reader at 1;
    rewrite Hroot; reflexivity.
Qed.

Lemma load_tail_writes (E : Env) (s : Source) (w : World) (sr : string) :
  (forall path name, imp_sys_path (importer E path name) = path) ->
  Str.truthy sr = true ->
  sys_path_writes
    (fst (bind (_load_module E (module s) (Some sr))
            (fun m => if opt_truthy (attribute s)
                      then bind (lift (getattr m (opt_str (attribute s))))
                                (fun obj => ret (LAttr obj))
                      else ret (LModule m)) w))
  = S (S (sys_path_writes w)).
Proof.
  intros Himport Hsr.
  destruct (_load_module_prepended E Himport (module s) sr w Hsr) as (_ & _ & Hwrites).
  unfold bind at 1.
  destruct (_load_module E (module s) (Some sr) w) as [w1 [m|e]]; simpl in *;
    [|exact Hwrites].
  destruct (opt_truthy (attribute s)); [|exact Hwrites].
  unfold bind, lift, ret. destruct (getattr m _); exact Hwrites.
Qed.




Example load_success_and_failure :
  snd (load demo_env (inl user_source) demo_world) = Ok (LAttr 11)
  /\ sys_path (fst (load demo_env (inl user_source) demo_world)) = demo_path
  /\ snd (load demo_env (inl missing_source) demo_world) = Raise ImportError
  /\ sys_path (fst (load demo_env (inl missing_source) demo_world)) = demo_path
  /\ sys_path (prepended "/proj" demo_world) = "/proj" :: demo_path.
Proof. repeat split. Qed.

(* ===================================================================== *)
(** ** Repository-context cache *)
(* ===================================================================== *)

Lemma find_hit (E : Env) (w : World) (p : string) (c : LocalRepositoryContext) :
  Str.truthy p = true ->
  _CODE_REPOSITORY_CACHE w !! os_path.abspath (getcwd E) p = Some c ->
  find_active_code_repository E (Some p) w = (w, Ok (Some c)).
Proof.
  intros Hp Hc. unfold find_active_code_repository. unfold_monad. simpl.
  rewrite Hp. simpl. now rewrite Hc.
Qed.

Lemma find_hit_default (E : Env) (w : World) (sr : string) (c : LocalRepositoryContext) :
  get_source_root E w = Ok sr ->
  _CODE_REPOSITORY_CACHE w !! os_path.abspath (getcwd E) sr = Some c ->
  find_active_code_repository E None w = (w, Ok (Some c)).
Proof.
  intros Hroot Hc. unfold find_active_code_repository. unfold_monad. simpl.
  rewrite Hroot. now rewrite Hc.
Qed.

(** The scan for a path writes the cache at that path only. *)
Lemma scan_keeps_entry (E : Env) (q k : string) (c : LocalRepositoryContext)
      (models : list string) (w : World) :
  k <> q ->
  _CODE_REPOSITORY_CACHE w !! k = Some c ->
  _CODE_REPOSITORY_CACHE (fst (scan_code_repositories E q models w)) !! k = Some c.
Proof.
  intros Hne. revert w. induction models as [|model rest IH]; intros w Hc; simpl.
  - exact Hc.
  - destruct (from_model E model) as [repo|]; [|now apply IH].
    unfold_monad. destruct (get_local_context repo q) as [ctx|].
    + simpl. now rewrite lookup_insert_ne.
    + apply IH. exact Hc.
Qed.

(** A cached entry is never evicted nor replaced by a lookup. *)
Lemma find_keeps_entry (E : Env) (path : option string) (k : string)
      (c : LocalRepositoryContext) (w : World) :
  _CODE_REPOSITORY_CACHE w !! k = Some c ->
  _CODE_REPOSITORY_CACHE (fst (find_active_code_repository E path w)) !! k = Some c.
Proof.
  intros Hc.
  assert (Hscan : forall q,
             _CODE_REPOSITORY_CACHE
               (fst (match _CODE_REPOSITORY_CACHE w !! q with
                     | Some ctx => (w, Ok (Some ctx))
                     | None => scan_code_repositories E q (list_code_repositories E)
                                 (count_listing w)
                     end)) !! k = Some c).
  { intros q. destruct (_CODE_REPOSITORY_CACHE w !! q) eqn:Hq; [exact Hc|].
    apply scan_keeps_entry; [|exact Hc]. intros ->. congruence. }
  unfold find_active_code_repository. unfold_monad.
  destruct (opt_truthy path); simpl.
  - generalize (Hscan (os_path.abspath (getcwd E) (opt_str path))).
    destruct (_CODE_REPOSITORY_CACHE w !! os_path.abspath (getcwd E) (opt_str path));
      intros H; exact H.
  - destruct (get_source_root E w) as [q|e]; [|exact Hc].
    generalize (Hscan (os_path.abspath (getcwd E) q)).
    destruct (_CODE_REPOSITORY_CACHE w !! os_path.abspath (getcwd E) q);
      intros H; exact H.
Qed.

Lemma run_lookups_invariant (E : Env) (later : list (option string)) (w : World)
      (k sr : string) (c : LocalRepositoryContext) :
  get_source_root E w = Ok sr ->
  _CODE_REPOSITORY_CACHE w !! k = Some c ->
  get_source_root E (run_lookups E later w) = Ok sr
  /\ _CODE_REPOSITORY_CACHE (run_lookups E later w) !! k = Some c.
Proof.
  revert w. induction later as [|p later IH]; intros w Hroot Hc; simpl.
  - now split.
  - apply IH.
    + now rewrite find_keeps_source_root.
    + now apply find_keeps_entry.
Qed.

(** C7. After a context has been injected, any lookup for the path it was
    registered under (the absolute source root), explicitly or by default,
    and after any number of other lookups, returns the injected context
    and leaves the whole state untouched: the repository list is not
    enumerated and no repository is probed, whatever the registered
    repositories would report for that path. *)
Theorem C7_injected_context_served_from_cache (E : Env) (w : World)
        (root commit : string) (repo : BaseCodeRepository) (sr : string) :
  get_source_root E w = Ok sr ->
  let injected := _DownloadedRepositoryContext (repo_id repo) root commit in
  let w1 := fst (set_custom_local_repository E root commit repo w) in
  snd (set_custom_local_repository E root commit repo w) = Ok tt
  /\ forall (later : list (option string)) (p : string),
       let w2 := run_lookups E later w1 in
       (Str.truthy p = true ->
        os_path.abspath (getcwd E) p = os_path.abspath (getcwd E) sr ->
        find_active_code_repository E (Some p) w2 = (w2, Ok (Some injected)))
       /\ find_active_code_repository E None w2 = (w2, Ok (Some injected))
       /\ listings w2 = listings (fst (find_active_code_repository E None w2))
       /\ probes w2 = probes (fst (find_active_code_repository E None w2)).
Proof.
  intros Hroot injected w1.
  assert (Hset : set_custom_local_repository E root commit repo w
                 = (set_cache (insert (os_path.abspath (getcwd E) sr) injected) w, Ok tt)).
  { unfold set_custom_local_repository. unfold_monad. now rewrite Hroot. }
  subst w1. rewrite Hset. simpl. split; [reflexivity|].
  intros later p.
  destruct (run_lookups_invariant E later
              (set_cache (insert (os_path.abspath (getcwd E) sr) injected) w)
              (os_path.abspath (getcwd E) sr) sr injected) as [Hroot2 Hcache2].
  { exact Hroot. }
  { simpl. apply lookup_insert_eq. }
  pose proof (find_hit_default E _ sr injected Hroot2 Hcache2) as Hdefault.
  split; [|split; [exact Hdefault | now rewrite Hdefault]].
  intros Hp Habs. apply find_hit; [exact Hp|]. now rewrite Habs.
Qed.

Lemma C7_injected_context_served_from_cache_witness :
  let w1 := fst (set_custom_local_repository demo_env "/r" "abc123" origin_repo demo_world) in
  find_active_code_repository demo_env (Some "/proj/") w1
  = (w1, Ok (Some (_DownloadedRepositoryContext "repo-1" "/r" "abc123"))).
Proof.
  exact (proj1 (proj2 (C7_injected_context_served_from_cache demo_env demo_world
                         "/r" "abc123" origin_repo "/proj" eq_refl) [] "/proj/")
               eq_refl eq_refl).
Defined.

Example lookup_examples :
  (* live detection: the broken configuration is skipped, the second
     repository is probed and its context cached *)
  snd (find_active_code_repository demo_env None demo_world) = Ok (Some clean_context)
  /\ probes (fst (find_active_code_repository demo_env None demo_world)) = 1
  /\ listings (fst (find_active_code_repository demo_env None demo_world)) = 1
  /\ _CODE_REPOSITORY_CACHE (fst (find_active_code_repository demo_env None demo_world))
       !! "/proj" = Some clean_context
  (* a miss is not cached *)
  /\ snd (find_active_code_repository demo_env (Some "/elsewhere") demo_world) = Ok None
  /\ _CODE_REPOSITORY_CACHE
       (fst (find_active_code_repository demo_env (Some "/elsewhere") demo_world))
     = ∅
  (* after an injection the live repository is not consulted *)
  /\ (let w1 := fst (set_custom_local_repository demo_env "/r" "fff" origin_repo demo_world) in
      snd (find_active_code_repository demo_env None w1)
      = Ok (Some (_DownloadedRepositoryContext "repo-1" "/r" "fff"))
      /\ probes (fst (find_active_code_repository demo_env None w1)) = 0).
Proof. repeat split; vm_compute; reflexivity. Qed.

(* ===================================================================== *)
(** ** Resolver: the branches on the classification *)
(* ===================================================================== *)

Lemma _resolve_module_ext (E : Env) (w w' : World) (m : Module) :
  _CUSTOM_SOURCE_ROOT w' = _CUSTOM_SOURCE_ROOT w ->
  sys_modules w' = sys_modules w ->
  _resolve_module E w' m = _resolve_module E w m.
Proof.
  intros Hc Hm. unfold _resolve_module.
  now rewrite (get_source_root_ext E w w' Hc Hm).
Qed.

Lemma find_keeps_resolve_module (E : Env) (path : option string) (w : World) (m : Module) :
  _resolve_module E (fst (find_active_code_repository E path w)) m = _resolve_module E w m.
Proof.
  apply _resolve_module_ext; apply find_keeps; auto with keeps.
Qed.

(** An object that is its module, or is held by its module under its own
    name, passes the validation. *)
Lemma resolve_defined (E : Env) (w : World) (obj : PyObject) (m : Module)
      (attribute_name : option string) :
  defined_in w obj m attribute_name ->
  resolve E obj w = resolve_in E m attribute_name w.
Proof.
  intros [m0 | d m0 Hmod Hattr]; unfold resolve.
  - reflexivity.
  - unfold bind at 1. unfold bind at 1. unfold gets at 1. rewrite Hmod.
    unfold ret at 1. cbv beta iota.
    unfold getattr_is_not. simpl opt_str. simpl id_of.
    rewrite (bool_decide_eq_true_2 _ Hattr). simpl negb.
    now rewrite andb_false_r.
Qed.

(** The user branch when no clean context is active. *)
Lemma resolve_user_fallback (E : Env) (w w1 : World) (m : Module)
      (attribute_name : option string) (active : option LocalRepositoryContext) :
  find_active_code_repository E None w = (w1, Ok active) ->
  from_option has_local_changes true active = true ->
  resolve_user E m attribute_name w
  = (w1, match _resolve_module E w m with
         | Ok name => Ok (inr name)
         | Raise e => Raise e
         end).
Proof.
  intros Hfind Hdirty.
  pose proof (find_keeps_resolve_module E None w m) as Hext.
  rewrite Hfind in Hext. simpl in Hext.
  unfold resolve_user, bind. rewrite Hfind.
  destruct active as [ctx|]; simpl in Hdirty.
  - rewrite Hdirty. simpl. unfold reader, ret. rewrite Hext.
    destruct (_resolve_module E w m); reflexivity.
  - unfold reader, ret. rewrite Hext.
    destruct (_resolve_module E w m); reflexivity.
Qed.

(** The user branch with a clean context. *)
Lemma resolve_user_clean (E : Env) (w w1 : World) (m : Module)
      (attribute_name : option string) (ctx : LocalRepositoryContext)
      (name sr : string) (subdir : pathlib.PurePath) :
  find_active_code_repository E None w = (w1, Ok (Some ctx)) ->
  has_local_changes ctx = false ->
  _resolve_module E w m = Ok name ->
  get_source_root E w = Ok sr ->
  pathlib.relative_to (pathlib.Path sr) (pathlib.Path (root ctx)) = Some subdir ->
  resolve_user E m attribute_name w
  = (w1, Ok (inl (CodeRepositorySource (code_repository_id ctx) (current_commit ctx)
                    (pathlib.as_posix subdir) name attribute_name))).
Proof.
  intros Hfind Hclean Hname Hroot Hsub.
  pose proof (find_keeps_resolve_module E None w m) as Hext.
  pose proof (find_keeps_source_root E None w) as Hext'.
  rewrite Hfind in Hext, Hext'. simpl in Hext, Hext'.
  unfold resolve_user, bind. rewrite Hfind, Hclean. simpl.
  unfold reader. rewrite Hext, Hname, Hext', Hroot, Hsub. reflexivity.
Qed.

(** Only the clean-context branch builds a code-repository descriptor. *)
Lemma resolve_user_variant (E : Env) (w : World) (m : Module)
      (attribute_name : option string) (s : Source) :
  snd (resolve_user E m attribute_name w) = Ok (inl s) ->
  exists w1 ctx,
    find_active_code_repository E None w = (w1, Ok (Some ctx))
    /\ has_local_changes ctx = false.
Proof.
  unfold resolve_user, bind.
  destruct (find_active_code_repository E None w) as [w1 [[ctx|]|e]]; simpl.
  - destruct (has_local_changes ctx) eqn:Hchanges; simpl.
    + unfold reader, ret. destruct (_resolve_module E w1 m); discriminate.
    + intros _. now exists w1, ctx.
  - unfold reader, ret. destruct (_resolve_module E w1 m); discriminate.
  - discriminate.
Qed.

(** The module name that [resolve] starts from. *)
Lemma resolve_in_unfold (E : Env) (w : World) (m : Module) (attribute_name : option string) :
  resolve_in E m attribute_name w
  = match (if String.eqb (__name__ m) "__main__"
           then _resolve_module E w m else Ok (__name__ m)) with
    | Ok module_name =>
        match get_source_type E w m with
        | Ok source_type => resolve_by_type E m attribute_name module_name source_type w
        | Raise e => (w, Raise e)
        end
    | Raise e => (w, Raise e)
    end.
Proof.
  unfold resolve_in, bind, reader, ret.
  destruct (String.eqb (__name__ m) "__main__"); [|reflexivity].
  destruct (_resolve_module E w m); reflexivity.
Qed.

Lemma resolve_in_variant (E : Env) (w : World) (m : Module)
      (attribute_name : option string) (s : Source) :
  snd (resolve_in E m attribute_name w) = Ok s ->
  is_code_repository_variant s = true ->
  exists w1 ctx,
    find_active_code_repository E None w = (w1, Ok (Some ctx))
    /\ has_local_changes ctx = false.
Proof.
  rewrite resolve_in_unfold.
  destruct (if String.eqb (__name__ m) "__main__" then _ else _) as [module_name|e];
    [|discriminate].
  destruct (get_source_type E w m) as [source_type|e]; [|discriminate].
  unfold resolve_by_type.
  destruct source_type; simpl;
    try (unfold ret; simpl; intros [= <-]; discriminate).
  - unfold bind.
    destruct (resolve_user E m attribute_name w) as [w1 [[s'|name]|e]] eqn:Huser; simpl.
    + intros [= <-] _. apply (resolve_user_variant E w m attribute_name s').
      now rewrite Huser.
    + intros [= <-]. discriminate.
    + discriminate.
  - destruct (opt_truthy _); unfold ret; simpl; intros [= <-]; discriminate.
Qed.

(** C4 (as amended). For an object that passes the top-level validation
    and whose module is classified as user, when no repository context is
    found or the one found has uncommitted local changes, [resolve] returns
    the plain user descriptor of the re-derived module path whenever that
    re-derivation succeeds, and fails with the error of the re-derivation
    otherwise. Whenever [resolve] returns a descriptor of the
    code-repository variant, a context was found and it is clean. *)
Theorem C4_user_descriptor_without_clean_context (E : Env) :
  (forall (w w1 : World) (obj : PyObject) (m : Module) (attribute_name : option string)
          (active : option LocalRepositoryContext),
      defined_in w obj m attribute_name ->
      get_source_type E w m = Ok USER ->
      find_active_code_repository E None w = (w1, Ok active) ->
      from_option has_local_changes true active = true ->
      snd (resolve E obj w)
      = match _resolve_module E w m with
        | Ok name => Ok (PlainSource name attribute_name USER)
        | Raise e => Raise e
        end)
  /\ (forall (w : World) (obj : PyObject) (s : Source),
        snd (resolve E obj w) = Ok s ->
        is_code_repository_variant s = true ->
        exists w1 ctx,
          find_active_code_repository E None w = (w1, Ok (Some ctx))
          /\ has_local_changes ctx = false).
Proof.
  split.
  - intros w w1 obj m attribute_name active Hdef Htype Hfind Hdirty.
    rewrite (resolve_defined E w obj m attribute_name Hdef), resolve_in_unfold.
    rewrite Htype. unfold resolve_by_type, bind.
    rewrite (resolve_user_fallback E w w1 m attribute_name active Hfind Hdirty).
    destruct (String.eqb (__name__ m) "__main__");
      destruct (_resolve_module E w m); reflexivity.
  - intros w obj s Hres Hvariant.
    unfold resolve in Hres. unfold bind at 1 in Hres.
    destruct obj as [m|d].
    + unfold ret at 1 in Hres. simpl in Hres.
      now apply (resolve_in_variant E w m None s).
    + unfold bind at 1, gets at 1 in Hres.
      destruct (sys_modules w !! def__module__ d) as [m|]; [|discriminate].
      unfold ret at 1 in Hres. cbv beta iota in Hres.
      destruct (opt_truthy (Some (def__name__ d)) && _); [discriminate|].
      now apply (resolve_in_variant E w m (Some (def__name__ d)) s).
Qed.

Lemma C4_user_descriptor_without_clean_context_witness :
  snd (resolve demo_env (ObjDef trainer) dirty_world)
  = Ok (PlainSource "steps" (Some "trainer") USER)
  /\ exists w1 ctx,
       find_active_code_repository demo_env None demo_world = (w1, Ok (Some ctx))
       /\ has_local_changes ctx = false.
Proof.
  split.
  - exact (proj1 (C4_user_descriptor_without_clean_context demo_env)
             dirty_world dirty_world (ObjDef trainer) steps_mod (Some "trainer")
             (Some dirty_context)
             (defined_attribute dirty_world trainer steps_mod eq_refl eq_refl)
             eq_refl eq_refl eq_refl).
  - exact (proj2 (C4_user_descriptor_without_clean_context demo_env)
             demo_world (ObjDef trainer)
             (CodeRepositorySource "repo-1" "abc123" "." "steps" (Some "trainer"))
             eq_refl eq_refl).
Defined.

(** C4, counterexample to "returns a plain descriptor": the function
    [kernel] is a top-level attribute of the compiled extension module
    [/proj/fast.so], which is classified as user; with a dirty working
    copy [resolve] does not return a descriptor but fails in the module-path
    re-derivation. *)
Lemma C4_compiled_user_module_fails :
  defined_in dirty_world (ObjDef kernel) fast_mod (Some "kernel")
  /\ get_source_type demo_env dirty_world fast_mod = Ok USER
  /\ snd (find_active_code_repository demo_env None dirty_world) = Ok (Some dirty_context)
  /\ has_local_changes dirty_context = true
  /\ snd (resolve demo_env (ObjDef kernel) dirty_world)
     = Raise (RuntimeError NotAPythonFile).
Proof.
  split; [apply (defined_attribute dirty_world kernel fast_mod); reflexivity|].
  repeat split.
Qed.

Lemma _get_package_for_module_unique (E : Env) (module_name p : string) :
  packages_distributions E (Str.split_first "."%char module_name) = [p] ->
  _get_package_for_module E module_name = Some p.
Proof. intros H. unfold _get_package_for_module. now rewrite H. Qed.

Lemma _get_package_for_module_ambiguous (E : Env) (module_name : string) :
  length (packages_distributions E (Str.split_first "."%char module_name)) <> 1 ->
  _get_package_for_module E module_name = None.
Proof.
  intros H. unfold _get_package_for_module.
  destruct (packages_distributions E _) as [|a [|b l]]; try reflexivity.
  now contradiction H.
Qed.

Lemma resolve_by_type_distribution (E : Env) (w : World) (m : Module)
      (attribute_name : option string) (module_name : string) :
  (forall p,
      packages_distributions E (Str.split_first "."%char module_name) = [p] ->
      Str.truthy p = true ->
      resolve_by_type E m attribute_name module_name DISTRIBUTION_PACKAGE w
      = (w, Ok (DistributionPackageSource module_name attribute_name p
                  (match metadata_version E p with
                   | VersionIs v => Some v
                   | _ => None
                   end)
                  DISTRIBUTION_PACKAGE)))
  /\ (length (packages_distributions E (Str.split_first "."%char module_name)) <> 1 ->
      resolve_by_type E m attribute_name module_name DISTRIBUTION_PACKAGE w
      = (w, Ok (PlainSource module_name attribute_name UNKNOWN))).
Proof.
  unfold resolve_by_type. split.
  - intros p Hone Hp.
    rewrite (_get_package_for_module_unique E module_name p Hone). simpl.
    rewrite Hp. unfold _get_package_version.
    destruct (metadata_version E p); reflexivity.
  - intros Hmany.
    now rewrite (_get_package_for_module_ambiguous E module_name Hmany).
Qed.

(** C5 (as amended). For an object that passes the top-level validation
    and whose module is classified as distribution package: when exactly
    one distribution, of non-empty name, owns the top-level name of the
    module name, [resolve] returns the distribution-package descriptor
    with that name and the installed version, the version being absent
    when its lookup fails; when no or several distributions own the
    top-level name, [resolve] returns the plain descriptor with
    classification unknown. The module name is the module's own name,
    except for the entry-point module, whose name is first re-derived from
    its file: when that re-derivation fails, [resolve] fails with its
    error and changes nothing, and when it succeeds the two cases hold for
    the re-derived name. *)
Theorem C5_distribution_package_descriptor (E : Env) (w : World) (obj : PyObject)
        (m : Module) (attribute_name : option string) :
  defined_in w obj m attribute_name ->
  get_source_type E w m = Ok DISTRIBUTION_PACKAGE ->
  (__name__ m <> "__main__" ->
   (forall p,
       packages_distributions E (Str.split_first "."%char (__name__ m)) = [p] ->
       Str.truthy p = true ->
       resolve E obj w
       = (w, Ok (DistributionPackageSource (__name__ m) attribute_name p
                   (match metadata_version E p with
                    | VersionIs v => Some v
                    | _ => None
                    end)
                   DISTRIBUTION_PACKAGE)))
   /\ (length (packages_distributions E (Str.split_first "."%char (__name__ m))) <> 1 ->
       resolve E obj w = (w, Ok (PlainSource (__name__ m) attribute_name UNKNOWN))))
  /\ (__name__ m = "__main__" ->
      (forall e, _resolve_module E w m = Raise e -> resolve E obj w = (w, Raise e))
      /\ (forall derived,
            _resolve_module E w m = Ok derived ->
            (forall p,
                packages_distributions E (Str.split_first "."%char derived) = [p] ->
                Str.truthy p = true ->
                resolve E obj w
                = (w, Ok (DistributionPackageSource derived attribute_name p
                            (match metadata_version E p with
                             | VersionIs v => Some v
                             | _ => None
                             end)
                            DISTRIBUTION_PACKAGE)))
            /\ (length (packages_distributions E (Str.split_first "."%char derived)) <> 1 ->
                resolve E obj w = (w, Ok (PlainSource derived attribute_name UNKNOWN))))).
Proof.
  intros Hdef Htype.
  rewrite (resolve_defined E w obj m attribute_name Hdef), resolve_in_unfold.
  split.
  - intros Hname. apply String.eqb_neq in Hname. rewrite Hname, Htype.
    apply resolve_by_type_distribution.
  - intros Hname. apply String.eqb_eq in Hname. rewrite Hname. split.
    + intros e He. now rewrite He.
    + intros derived Hderived. rewrite Hderived, Htype.
      apply resolve_by_type_distribution.
Qed.

Lemma C5_distribution_package_descriptor_witness :
  resolve demo_env (ObjModule numpy_mod) demo_world
  = (demo_world,
     Ok (DistributionPackageSource "numpy" None "numpy" (Some "1.24.0") DISTRIBUTION_PACKAGE))
  /\ resolve demo_env (ObjModule google_mod) demo_world
     = (demo_world, Ok (PlainSource "google.auth" None UNKNOWN))
  /\ resolve demo_env (ObjModule pytest_main) pytest_world
     = (pytest_world, Raise (RuntimeError OutsideSourceRoot)).
Proof.
  split; [|split].
  - refine (proj1 (proj1 (C5_distribution_package_descriptor demo_env demo_world
                            (ObjModule numpy_mod) numpy_mod None
                            (defined_module demo_world numpy_mod) eq_refl) _)
                  "numpy" eq_refl eq_refl).
    discriminate.
  - refine (proj2 (proj1 (C5_distribution_package_descriptor demo_env demo_world
                            (ObjModule google_mod) google_mod None
                            (defined_module demo_world google_mod) eq_refl) _) _);
      simpl; discriminate.
  - exact (proj1 (proj2 (C5_distribution_package_descriptor demo_env pytest_world
                           (ObjModule pytest_main) pytest_main None
                           (defined_module pytest_world pytest_main) eq_refl) eq_refl)
                 (RuntimeError OutsideSourceRoot) eq_refl).
Defined.

(** C5, counterexamples. The entry-point module of [python -m pytest] is
    classified as distribution package and no distribution owns the name
    [__main__], yet [resolve] fails instead of returning the unknown
    descriptor, because the entry-point module is first re-derived from
    its file, which is outside the source root. And a top-level name owned
    by exactly one distribution whose recorded name is empty is demoted to
    unknown. *)
Lemma C5_entry_point_and_nameless_distribution :
  (get_source_type demo_env pytest_world pytest_main = Ok DISTRIBUTION_PACKAGE
   /\ packages_distributions demo_env (Str.split_first "."%char (__name__ pytest_main)) = []
   /\ snd (resolve demo_env (ObjModule pytest_main) pytest_world)
      = Raise (RuntimeError OutsideSourceRoot))
  /\ (get_source_type demo_env demo_world nameless_mod = Ok DISTRIBUTION_PACKAGE
      /\ packages_distributions demo_env (Str.split_first "."%char (__name__ nameless_mod))
         = [""]
      /\ snd (resolve demo_env (ObjModule nameless_mod) demo_world)
         = Ok (PlainSource "nameless" None UNKNOWN)).
Proof. repeat split. Qed.

(* ===================================================================== *)
(** ** Round trip *)
(* ===================================================================== *)

Lemma import_module_ext (E : Env) (name : string) (v v' : World) :
  sys_path v' = sys_path v ->
  sys_modules v' = sys_modules v ->
  snd (import_module E name v') = snd (import_module E name v)
  /\ sys_path (fst (import_module E name v')) = sys_path (fst (import_module E name v)).
Proof.
  intros Hp Hm. unfold import_module. rewrite Hp, Hm.
  destruct (sys_modules v !! name); [now split|].
  destruct (imp_module _); now split.
Qed.

(** What a module load returns depends on the search path and on the
    module table only. *)
Lemma _load_module_result_ext (E : Env) (name : string) (import_root : option string)
      (w w' : World) :
  sys_path w' = sys_path w ->
  sys_modules w' = sys_modules w ->
  snd (_load_module E name import_root w') = snd (_load_module E name import_root w).
Proof.
  intros Hpath Hmods. unfold _load_module.
  destruct (opt_truthy import_root); [|now apply import_module_ext].
  unfold prepend_python_path, try_finally, bind, sys_path_insert0, modify.
  fold (prepended (opt_str import_root) w) (prepended (opt_str import_root) w').
  destruct (import_module_ext E name (prepended (opt_str import_root) w)
              (prepended (opt_str import_root) w')) as [Hr Hs].
  { simpl. now rewrite Hpath. }
  { exact Hmods. }
  destruct (import_module E name (prepended (opt_str import_root) w')) as [v1' r1'].
  destruct (import_module E name (prepended (opt_str import_root) w)) as [v1 r1].
  simpl in Hr, Hs. subst r1'.
  unfold sys_path_remove. rewrite Hs.
  destruct (list_remove _ (sys_path v1)); reflexivity.
Qed.

(** C1 (as amended). Let [f] be a class or function of non-empty name
    that its module holds under that name, the module being classified as
    user; let a clean repository context be active whose root contains the
    source root; and let the module be importable from the source root
    under the dotted path re-derived from its file, that is, loading that
    path with the source root prepended yields this very module. Then
    [resolve] returns the code-repository descriptor with that dotted path
    and the attribute name, and loading the descriptor returns the
    identical object. *)
Theorem C1_round_trip (E : Env) (w w1 : World) (d : ClassOrFunction) (m : Module)
        (ctx : LocalRepositoryContext) (name sr : string) (subdir : pathlib.PurePath) :
  sys_modules w !! def__module__ d = Some m ->
  __dict__ m !! def__name__ d = Some (oid d) ->
  Str.truthy (def__name__ d) = true ->
  get_source_type E w m = Ok USER ->
  find_active_code_repository E None w = (w1, Ok (Some ctx)) ->
  has_local_changes ctx = false ->
  get_source_root E w = Ok sr ->
  pathlib.relative_to (pathlib.Path sr) (pathlib.Path (root ctx)) = Some subdir ->
  _resolve_module E w m = Ok name ->
  snd (_load_module E name (Some sr) w) = Ok m ->
  let source := CodeRepositorySource (code_repository_id ctx) (current_commit ctx)
                  (pathlib.as_posix subdir) name (Some (def__name__ d)) in
  resolve E (ObjDef d) w = (w1, Ok source)
  /\ snd (load E (inl source) w1) = Ok (LAttr (oid d)).
Proof.
  intros Hmod Hattr Hname Htype Hfind Hclean Hroot Hsub Hpath Himport source.
  split.
  - rewrite (resolve_defined E w (ObjDef d) m (Some (def__name__ d))
               (defined_attribute w d m Hmod Hattr)).
    rewrite resolve_in_unfold, Htype.
    assert (Hstart : exists module_name,
               (if String.eqb (__name__ m) "__main__"
                then _resolve_module E w m else Ok (__name__ m)) = Ok module_name).
    { destruct (String.eqb _ _); eauto. }
    destruct Hstart as [module_name ->].
    unfold resolve_by_type, bind.
    now rewrite (resolve_user_clean E w w1 m (Some (def__name__ d)) ctx name sr subdir
                   Hfind Hclean Hpath Hroot Hsub).
  - (* the state after [resolve] differs from [w] in the cache and the
       counters only *)
    pose proof (find_keeps E sys_path None cache_blind_sys_path w) as Hp1.
    pose proof (find_keeps E sys_modules None cache_blind_sys_modules w) as Hm1.
    pose proof (find_keeps_source_root E None w) as Hr1.
    rewrite Hfind in Hp1, Hm1, Hr1. simpl in Hp1, Hm1, Hr1. rewrite Hroot in Hr1.
    rewrite (load_code_repository E source w1 (code_repository_id ctx)
               (current_commit ctx) (pathlib.as_posix subdir) eq_refl eq_refl).
    destruct (find_default_returns E w1 sr Hr1) as [active Hactive].
    destruct (find_active_code_repository E None w1) as [w2 r2] eqn:Hfind1.
    simpl in Hactive. subst r2.
    destruct (warn_logs_first_holding E (code_repository_id ctx) (current_commit ctx)
                w1 w2 active Hfind1) as [Hok _].
    pose proof (warn_keeps E sys_path (code_repository_id ctx) (current_commit ctx)
                  cache_blind_sys_path log_blind_sys_path w1) as Hp2.
    pose proof (warn_keeps E sys_modules (code_repository_id ctx) (current_commit ctx)
                  cache_blind_sys_modules log_blind_sys_modules w1) as Hm2.
    pose proof (warn_keeps E _CUSTOM_SOURCE_ROOT (code_repository_id ctx)
                  (current_commit ctx) cache_blind_custom_root log_blind_custom_root w1)
      as Hc2.
    unfold bind at 1.
    destruct (_warn_about_potential_source_loading_issues E (code_repository_id ctx)
                (current_commit ctx) w1) as [w3 r3].
    simpl in Hok, Hp2, Hm2, Hc2. subst r3.
    unfold bind at 1, reader at 1.
    rewrite (get_source_root_ext E w1 w3 Hc2 Hm2), Hr1.
    assert (Hload : snd (_load_module E name (Some sr) w3) = Ok m).
    { rewrite <- Himport. apply _load_module_result_ext; congruence. }
    unfold bind at 1. simpl module.
    destruct (_load_module E name (Some sr) w3) as [w4 r4]. simpl in Hload. subst r4.
    change (opt_truthy (attribute source)) with (Str.truthy (def__name__ d)).
    rewrite Hname.
    change (opt_str (attribute source)) with (def__name__ d).
    unfold bind, lift, ret, getattr. now rewrite Hattr.
Qed.

Lemma C1_round_trip_witness :
  let source := CodeRepositorySource "repo-1" "abc123" "." "steps" (Some "trainer") in
  snd (resolve demo_env (ObjDef trainer) demo_world) = Ok source
  /\ snd (load demo_env (inl source)
            (fst (find_active_code_repository demo_env None demo_world)))
     = Ok (LAttr (oid trainer)).
Proof.
  pose proof (C1_round_trip demo_env demo_world
                (fst (find_active_code_repository demo_env None demo_world))
                trainer steps_mod clean_context "steps" "/proj" (pathlib.mkPath "" [])
                eq_refl eq_refl eq_refl eq_refl eq_refl eq_refl eq_refl eq_refl
                eq_refl eq_refl) as [Hresolve Hload].
  split.
  - now rewrite Hresolve.
  - exact Hload.
Defined.

(** C1, counterexample. In a [src]-layout project the module is imported,
    and importable, as [pkg.mod] (its directory [/proj/src] is on the
    search path), it is classified as user and a clean context is active;
    but its path re-derived from the source root [/proj] is [src.pkg.mod],
    so the load imports the file a second time and returns the function of
    the new module object, not the one that was resolved. *)
Lemma C1_round_trip_src_layout :
  sys_modules demo_world !! def__module__ pkg_f = Some pkg_mod
  /\ __dict__ pkg_mod !! def__name__ pkg_f = Some (oid pkg_f)
  /\ snd (import_module demo_env "pkg.mod" demo_world) = Ok pkg_mod
  /\ get_source_type demo_env demo_world pkg_mod = Ok USER
  /\ snd (find_active_code_repository demo_env None demo_world) = Ok (Some clean_context)
  /\ has_local_changes clean_context = false
  /\ exists w1 source,
       resolve demo_env (ObjDef pkg_f) demo_world = (w1, Ok source)
       /\ module source = "src.pkg.mod"
       /\ snd (load demo_env (inl source) w1) = Ok (LAttr 51)
       /\ LAttr 51 <> LAttr (oid pkg_f).
Proof.
  do 6 (split; [reflexivity|]).
  exists (fst (resolve demo_env (ObjDef pkg_f) demo_world)),
         (CodeRepositorySource "repo-1" "abc123" "." "src.pkg.mod" (Some "f")).
  split; [vm_compute; reflexivity|].
  split; [reflexivity|].
  split; [vm_compute; reflexivity | discriminate].
Qed.

(* ===================================================================== *)
(** ** Further properties: the repository-context cache *)
(* ===================================================================== *)

Lemma scan_result (E : Env) (path : string) (models : list string) (w : World) :
  snd (scan_code_repositories E path models w)
  = Ok (first_reported (instantiable E models) path).
Proof.
  revert w. induction models as [|model rest IH]; intros w; simpl; [reflexivity|].
  unfold instantiable in *. simpl.
  destruct (from_model E model) as [repo|]; simpl; [|apply IH].
  unfold_monad. destruct (get_local_context repo path); [reflexivity | apply IH].
Qed.

Lemma scan_cache (E : Env) (path : string) (models : list string) (w : World) :
  _CODE_REPOSITORY_CACHE (fst (scan_code_repositories E path models w))
  = match first_reported (instantiable E models) path with
    | Some c => <[path := c]> (_CODE_REPOSITORY_CACHE w)
    | None => _CODE_REPOSITORY_CACHE w
    end.
Proof.
  revert w. induction models as [|model rest IH]; intros w; simpl; [reflexivity|].
  unfold instantiable in *. simpl.
  destruct (from_model E model) as [repo|]; simpl; [|apply IH].
  unfold_monad. destruct (get_local_context repo path); [reflexivity|].
  now rewrite IH.
Qed.

Lemma scan_probes (E : Env) (path : string) (models : list string) (w : World) :
  probes (fst (scan_code_repositories E path models w))
  = probes w + probed (instantiable E models) path.
Proof.
  revert w. induction models as [|model rest IH]; intros w; simpl; [lia|].
  unfold instantiable in *. simpl.
  destruct (from_model E model) as [repo|]; simpl; [|apply IH].
  unfold_monad. destruct (get_local_context repo path); simpl; [lia|].
  rewrite IH. simpl. lia.
Qed.

Lemma scan_listings (E : Env) (path : string) (models : list string) (w : World) :
  listings (fst (scan_code_repositories E path models w)) = listings w.
Proof.
  revert w. induction models as [|model rest IH]; intros w; simpl; [reflexivity|].
  destruct (from_model E model) as [repo|]; simpl; [|apply IH].
  unfold_monad. destruct (get_local_context repo path); simpl; [reflexivity|].
  now rewrite IH.
Qed.

(** A lookup that misses the cache enumerates the repository list once,
    skips the configurations that cannot be instantiated, probes the
    others in order up to the first that reports a context, returns that
    context and caches it under the absolute path; when none reports one
    it returns nothing and leaves the cache as it was. *)
Theorem find_on_cache_miss (E : Env) (w : World) (p : string) :
  Str.truthy p = true ->
  _CODE_REPOSITORY_CACHE w !! os_path.abspath (getcwd E) p = None ->
  let key := os_path.abspath (getcwd E) p in
  let repos := instantiable E (list_code_repositories E) in
  let w' := fst (find_active_code_repository E (Some p) w) in
  snd (find_active_code_repository E (Some p) w) = Ok (first_reported repos key)
  /\ _CODE_REPOSITORY_CACHE w'
     = match first_reported repos key with
       | Some c => <[key := c]> (_CODE_REPOSITORY_CACHE w)
       | None => _CODE_REPOSITORY_CACHE w
       end
  /\ listings w' = S (listings w)
  /\ probes w' = probes w + probed repos key.
Proof.
  intros Hp Hmiss key repos w'. subst key repos w'.
  unfold find_active_code_repository. unfold_monad. simpl. rewrite Hp. simpl.
  rewrite Hmiss.
  repeat split.
  - apply scan_result.
  - now rewrite scan_cache.
  - now rewrite scan_listings.
  - now rewrite scan_probes.
Qed.

Lemma find_on_cache_miss_witness :
  snd (find_active_code_repository demo_env (Some "/proj") demo_world)
  = Ok (Some clean_context)
  /\ probes (fst (find_active_code_repository demo_env (Some "/proj") demo_world)) = 1.
Proof.
  pose proof (find_on_cache_miss demo_env demo_world "/proj" eq_refl eq_refl)
    as (Hres & _ & _ & Hprobes).
  split; [exact Hres | exact Hprobes].
Defined.

(** A context found by a live lookup is served from the cache afterwards:
    repeating the lookup returns the same context and changes nothing, so
    the repository list is not enumerated and nothing is probed again. *)
Theorem find_hit_is_cached (E : Env) (w : World) (path : option string)
        (c : LocalRepositoryContext) :
  snd (find_active_code_repository E path w) = Ok (Some c) ->
  let w1 := fst (find_active_code_repository E path w) in
  find_active_code_repository E path w1 = (w1, Ok (Some c)).
Proof.
  intros Hfound w1.
  assert (Hkey : exists q,
             (if opt_truthy path then Ok (opt_str path) else get_source_root E w) = Ok q
             /\ _CODE_REPOSITORY_CACHE w1 !! os_path.abspath (getcwd E) q = Some c).
  { subst w1. revert Hfound. unfold find_active_code_repository. unfold_monad.
    destruct (opt_truthy path); simpl.
    - intros Hfound. exists (opt_str path). split; [reflexivity|]. revert Hfound.
      destruct (_CODE_REPOSITORY_CACHE w !! os_path.abspath (getcwd E) (opt_str path))
        as [c0|] eqn:Hc.
      + simpl. now intros [= <-].
      + rewrite scan_result, scan_cache. intros [= ->]. apply lookup_insert_eq.
    - destruct (get_source_root E w) as [q|e]; [|discriminate].
      intros Hfound. exists q. split; [reflexivity|]. revert Hfound.
      destruct (_CODE_REPOSITORY_CACHE w !! os_path.abspath (getcwd E) q)
        as [c0|] eqn:Hc.
      + simpl. now intros [= <-].
      + rewrite scan_result, scan_cache. intros [= ->]. apply lookup_insert_eq. }
  destruct Hkey as (q & Hq & Hcache).
  assert (Hq1 : (if opt_truthy path then Ok (opt_str path) else get_source_root E w1) = Ok q).
  { destruct (opt_truthy path); [exact Hq|].
    subst w1. now rewrite find_keeps_source_root. }
  unfold find_active_code_repository. unfold_monad.
  destruct (opt_truthy path); simpl.
  - injection Hq1 as ->. now rewrite Hcache.
  - rewrite Hq1. now rewrite Hcache.
Qed.

Lemma find_hit_is_cached_witness :
  let w1 := fst (find_active_code_repository demo_env None demo_world) in
  find_active_code_repository demo_env None w1 = (w1, Ok (Some clean_context)).
Proof.
  exact (find_hit_is_cached demo_env demo_world None clean_context eq_refl).
Defined.

(** A lookup that finds nothing is not remembered: the cache is as before,
    and repeating the lookup enumerates the repository list again. *)
Theorem find_miss_is_not_cached (E : Env) (w : World) (p : string) :
  Str.truthy p = true ->
  snd (find_active_code_repository E (Some p) w) = Ok None ->
  let w1 := fst (find_active_code_repository E (Some p) w) in
  let w2 := fst (find_active_code_repository E (Some p) w1) in
  _CODE_REPOSITORY_CACHE w1 = _CODE_REPOSITORY_CACHE w
  /\ snd (find_active_code_repository E (Some p) w1) = Ok None
  /\ listings w2 = S (S (listings w)).
Proof.
  intros Hp Hnone w1 w2.
  assert (Hmiss : _CODE_REPOSITORY_CACHE w !! os_path.abspath (getcwd E) p = None).
  { revert Hnone. unfold find_active_code_repository. unfold_monad. simpl.
    rewrite Hp. simpl. destruct (_CODE_REPOSITORY_CACHE w !! _); [discriminate|].
    reflexivity. }
  destruct (find_on_cache_miss E w p Hp Hmiss) as (Hres & Hcache & Hlist & _).
  rewrite Hnone in Hres. injection Hres as Hres. rewrite <- Hres in Hcache.
  fold w1 in Hcache, Hlist.
  assert (Hmiss1 : _CODE_REPOSITORY_CACHE w1 !! os_path.abspath (getcwd E) p = None)
    by now rewrite Hcache.
  destruct (find_on_cache_miss E w1 p Hp Hmiss1) as (Hres1 & _ & Hlist1 & _).
  fold w2 in Hlist1.
  repeat split.
  - exact Hcache.
  - now rewrite Hres1, <- Hres.
  - now rewrite Hlist1, Hlist.
Qed.

Lemma find_miss_is_not_cached_witness :
  _CODE_REPOSITORY_CACHE
    (fst (find_active_code_repository demo_env (Some "/elsewhere") demo_world))
  = _CODE_REPOSITORY_CACHE demo_world.
Proof.
  exact (proj1 (find_miss_is_not_cached demo_env demo_world "/elsewhere" eq_refl eq_refl)).
Defined.

(** Without an explicit path the lookup is the lookup for the source
    root; with an explicit path no source root is needed. *)
Theorem find_default_is_source_root (E : Env) (w : World) (sr : string) :
  get_source_root E w = Ok sr ->
  find_active_code_repository E None w = find_active_code_repository E (Some sr) w.
Proof.
  intros Hroot. unfold find_active_code_repository. unfold_monad. simpl.
  rewrite Hroot, (get_source_root_truthy E w sr Hroot). reflexivity.
Qed.

Lemma find_default_is_source_root_witness :
  find_active_code_repository demo_env None demo_world
  = find_active_code_repository demo_env (Some "/proj") demo_world.
Proof. exact (find_default_is_source_root demo_env demo_world "/proj" eq_refl). Defined.

(** An injection replaces whatever was registered for the source root,
    be it a live context or an earlier injection, touches no other path,
    and changes nothing else in the process state. *)
Theorem injection_overwrites (E : Env) (w : World) (root commit : string)
        (repo : BaseCodeRepository) (sr : string) :
  get_source_root E w = Ok sr ->
  let key := os_path.abspath (getcwd E) sr in
  let w1 := fst (set_custom_local_repository E root commit repo w) in
  _CODE_REPOSITORY_CACHE w1 !! key
  = Some (_DownloadedRepositoryContext (repo_id repo) root commit)
  /\ (forall k, k <> key -> _CODE_REPOSITORY_CACHE w1 !! k = _CODE_REPOSITORY_CACHE w !! k)
  /\ sys_path w1 = sys_path w /\ sys_modules w1 = sys_modules w
  /\ _CUSTOM_SOURCE_ROOT w1 = _CUSTOM_SOURCE_ROOT w
  /\ listings w1 = listings w /\ probes w1 = probes w.
Proof.
  intros Hroot key w1. subst w1.
  unfold set_custom_local_repository. unfold_monad. rewrite Hroot. simpl. fold key.
  repeat split.
  - apply lookup_insert_eq.
  - intros k Hk. now apply lookup_insert_ne.
Qed.

Lemma injection_overwrites_witness :
  _CODE_REPOSITORY_CACHE
    (fst (set_custom_local_repository demo_env "/r" "fff" origin_repo cached_world))
    !! "/proj"
  = Some (_DownloadedRepositoryContext "repo-1" "/r" "fff").
Proof.
  exact (proj1 (injection_overwrites demo_env cached_world "/r" "fff" origin_repo "/proj"
                  eq_refl)).
Defined.

(* ===================================================================== *)
(** ** Further properties: the loader *)
(* ===================================================================== *)

Lemma load_tail_result_ext (E : Env) (s : Source) (import_root : option string)
      (w w' : World) :
  sys_path w' = sys_path w ->
  sys_modules w' = sys_modules w ->
  snd (bind (_load_module E (module s) import_root)
         (fun m => if opt_truthy (attribute s)
                   then bind (lift (getattr m (opt_str (attribute s))))
                             (fun obj => ret (LAttr obj))
                   else ret (LModule m)) w')
  = snd (bind (_load_module E (module s) import_root)
           (fun m => if opt_truthy (attribute s)
                     then bind (lift (getattr m (opt_str (attribute s))))
                               (fun obj => ret (LAttr obj))
                     else ret (LModule m)) w).
Proof.
  intros Hp Hm.
  pose proof (_load_module_result_ext E (module s) import_root w w' Hp Hm) as Hres.
  unfold bind at 1 3.
  destruct (_load_module E (module s) import_root w') as [v' r'].
  destruct (_load_module E (module s) import_root w) as [v r].
  simpl in Hres. subst r'. destruct r as [m|e]; [|reflexivity].
  destruct (opt_truthy (attribute s)); [|reflexivity].
  unfold bind, lift, ret. destruct (getattr m _); reflexivity.
Qed.

Lemma load_fails_without_root (E : Env) (s : Source) (w : World) (e : exn) :
  type s = USER \/ type s = UNKNOWN
  \/ (type s = CODE_REPOSITORY /\ is_code_repository_variant s = true) ->
  get_source_root E w = Raise e ->
  load E (inl s) w = (w, Raise e).
Proof.
  intros Htype Hroot.
  destruct Htype as [Ht | [Ht | [Ht Hvariant]]].
  - unfold load. change (bind (ret s) ?k w) with (k s w). cbv beta.
    rewrite Ht. unfold bind, reader. now rewrite Hroot.
  - unfold load. change (bind (ret s) ?k w) with (k s w). cbv beta.
    rewrite Ht. unfold bind, reader. now rewrite Hroot.
  - unfold is_code_repository_variant in Hvariant.
    destruct (payload s) as [|rid c d|] eqn:Hpayload; try discriminate.
    rewrite (load_code_repository E s w rid c d Ht Hpayload).
    unfold bind at 1.
    now rewrite (warn_raises E rid c w w e (find_default_raises E w e Hroot)).
Qed.

(** In a process whose source root cannot be derived, a user, unknown or
    code-repository load fails with the source-root error before anything
    is imported: the whole process state is as it was. *)
Theorem load_needs_source_root (E : Env) (s : Source) (w : World) (e : exn) :
  type s = USER \/ type s = UNKNOWN
  \/ (type s = CODE_REPOSITORY /\ is_code_repository_variant s = true) ->
  get_source_root E w = Raise e ->
  load E (inl s) w = (w, Raise e).
Proof. apply load_fails_without_root. Qed.

Lemma load_needs_source_root_witness :
  load demo_env (inl user_source) interactive_world
  = (interactive_world, Raise (RuntimeError MainModuleWithoutFile)).
Proof.
  exact (load_needs_source_root demo_env user_source interactive_world
           (RuntimeError MainModuleWithoutFile) (or_introl eq_refl) eq_refl).
Defined.

(** Drift warnings never block a load: a valid code-repository descriptor
    loads exactly what the plain user descriptor of the same module and
    attribute loads, whatever the state of the active repository. *)
Theorem drift_warnings_do_not_block (E : Env) (s : Source) (w : World)
        (repository_id commit subdirectory : string) :
  type s = CODE_REPOSITORY ->
  payload s = CodeRepositoryFields repository_id commit subdirectory ->
  snd (load E (inl s) w)
  = snd (load E (inl (PlainSource (module s) (attribute s) USER)) w).
Proof.
  intros Htype Hpayload.
  destruct (get_source_root E w) as [sr|e] eqn:Hroot.
  - rewrite (load_with_root E (PlainSource (module s) (attribute s) USER) w sr
               (or_introl eq_refl) Hroot).
    rewrite (load_code_repository E s w repository_id commit subdirectory Htype Hpayload).
    destruct (find_default_returns E w sr Hroot) as [active Hactive].
    destruct (find_active_code_repository E None w) as [w0 r0] eqn:Hfind.
    simpl in Hactive. subst r0.
    destruct (warn_logs_first_holding E repository_id commit w w0 active Hfind) as [Hok _].
    pose proof (warn_keeps E sys_path repository_id commit cache_blind_sys_path
                  log_blind_sys_path w) as Hp.
    pose proof (warn_keeps E sys_modules repository_id commit cache_blind_sys_modules
                  log_blind_sys_modules w) as Hm.
    pose proof (warn_keeps E _CUSTOM_SOURCE_ROOT repository_id commit
                  cache_blind_custom_root log_blind_custom_root w) as Hc.
    unfold bind at 1.
    destruct (_warn_about_potential_source_loading_issues E repository_id commit w)
      as [w1 r1].
    simpl in Hok, Hp, Hm, Hc. subst r1.
    unfold bind at 1, reader at 1.
    rewrite (get_source_root_ext E w w1 Hc Hm), Hroot.
    apply (load_tail_result_ext E s (Some sr) w w1 Hp Hm).
  - rewrite (load_fails_without_root E s w e); [|right; right; split; [exact Htype|]|exact Hroot].
    + now rewrite (load_fails_without_root E (PlainSource (module s) (attribute s) USER) w e
                     (or_introl eq_refl) Hroot).
    + unfold is_code_repository_variant. now rewrite Hpayload.
Qed.

Lemma drift_warnings_do_not_block_witness :
  snd (load demo_env (inl drifted_source) dirty_world) = Ok (LAttr 11).
Proof.
  exact (drift_warnings_do_not_block demo_env drifted_source dirty_world
           "repo-2" "fff" "." eq_refl eq_refl).
Defined.

(** The shape of a distribution-package load once the descriptor
    validates. *)
Lemma load_distribution_package (E : Env) (s : Source) (w : World)
      (package_name : string) (version : option string) :
  type s = DISTRIBUTION_PACKAGE ->
  payload s = DistributionPackageFields package_name version ->
  load E (inl s) w
  = bind (if opt_truthy version
             && negb (bool_decide (_get_package_version E package_name = version))
          then modify (log_warning WarnVersionMismatch) else ret tt)
      (fun _ => bind (_load_module E (module s) None)
         (fun m => if opt_truthy (attribute s)
                   then bind (lift (getattr m (opt_str (attribute s))))
                             (fun obj => ret (LAttr obj))
                   else ret (LModule m))) w.
Proof.
  intros Htype Hpayload. unfold load.
  change (bind (ret s) ?k w) with (k s w). cbv beta.
  rewrite Htype. unfold DistributionPackageSource_parse_obj. rewrite Hpayload.
  unfold bind, lift. cbv beta iota.
  destruct (opt_truthy version); [|reflexivity].
  destruct (negb (bool_decide (_get_package_version E package_name = version)));
    reflexivity.
Qed.

(** A distribution-package load warns exactly when a version is recorded
    and differs from the installed one (a package that is not installed
    has no version), and the warning never blocks: the module is imported
    as for an internal descriptor, without a source root. *)
Theorem version_mismatch_warns_only (E : Env) (s : Source) (w : World)
        (package_name : string) (version : option string) :
  type s = DISTRIBUTION_PACKAGE ->
  payload s = DistributionPackageFields package_name version ->
  warning_log (fst (load E (inl s) w))
  = warning_log w
    ++ (if opt_truthy version
           && negb (bool_decide (_get_package_version E package_name = version))
        then [WarnVersionMismatch] else [])
  /\ snd (load E (inl s) w)
     = snd (load E (inl (PlainSource (module s) (attribute s) INTERNAL)) w).
Proof.
  intros Htype Hpayload.
  assert (Hplain : load E (inl (PlainSource (module s) (attribute s) INTERNAL)) w
                   = bind (_load_module E (module s) None)
                       (fun m => if opt_truthy (attribute s)
                                 then bind (lift (getattr m (opt_str (attribute s))))
                                           (fun obj => ret (LAttr obj))
                                 else ret (LModule m)) w) by reflexivity.
  rewrite Hplain.
  rewrite (load_distribution_package E s w package_name version Htype Hpayload).
  unfold bind at 1 3.
  destruct (opt_truthy version
            && negb (bool_decide (_get_package_version E package_name = version))).
  - unfold modify. cbv beta iota. split.
    + now rewrite (load_tail_keeps E warning_log s None path_blind_warning_log).
    + apply load_tail_result_ext; reflexivity.
  - unfold ret at 1 3. cbv beta iota. split; [|reflexivity].
    rewrite (load_tail_keeps E warning_log s None path_blind_warning_log).
    now rewrite app_nil_r.
Qed.

Lemma version_mismatch_warns_only_witness :
  warning_log (fst (load demo_env
                      (inl (DistributionPackageSource "numpy" None "numpy" (Some "1.0")
                              DISTRIBUTION_PACKAGE)) demo_world))
  = [WarnVersionMismatch].
Proof.
  exact (proj1 (version_mismatch_warns_only demo_env
                  (DistributionPackageSource "numpy" None "numpy" (Some "1.0")
                     DISTRIBUTION_PACKAGE)
                  demo_world "numpy" (Some "1.0") eq_refl eq_refl)).
Defined.

(* ===================================================================== *)
(** ** Further properties: classifier and resolver *)
(* ===================================================================== *)

Lemma get_source_type_range (E : Env) (w : World) (m : Module) (t : SourceType) :
  get_source_type E w m = Ok t -> t <> CODE_REPOSITORY.
Proof.
  unfold get_source_type, is_user_file.
  destruct (inspect_getfile m) as [file|]; [|intros [= <-]; discriminate].
  destruct (is_internal_module _); [intros [= <-]; discriminate|].
  destruct (is_standard_lib_file E file); [intros [= <-]; discriminate|].
  destruct (get_source_root E w) as [sr|e]; simpl; [|discriminate].
  destruct (in_parents _ _); [intros [= <-]; discriminate|].
  destruct (is_distribution_package_file E file _); intros [= <-]; discriminate.
Qed.

(** A classification other than builtin and internal was reached through
    the source root. *)
Lemma get_source_type_used_root (E : Env) (w : World) (m : Module) (t : SourceType) :
  get_source_type E w m = Ok t -> t <> BUILTIN -> t <> INTERNAL ->
  exists sr, get_source_root E w = Ok sr.
Proof.
  unfold get_source_type, is_user_file.
  destruct (inspect_getfile m) as [file|]; [|intros [= <-]; congruence].
  destruct (is_internal_module _); [intros [= <-]; congruence|].
  destruct (is_standard_lib_file E file); [intros [= <-]; congruence|].
  destruct (get_source_root E w) as [sr|e]; simpl; [eauto | discriminate].
Qed.

(** The classifier never answers code-repository: that tag is given by
    the resolver alone. *)
Theorem classifier_never_code_repository (E : Env) (w : World) (m : Module) :
  get_source_type E w m <> Ok CODE_REPOSITORY.
Proof.
  intros H. now apply (get_source_type_range E w m CODE_REPOSITORY H).
Qed.

Lemma resolve_user_descriptor (E : Env) (w : World) (m : Module)
      (attribute_name : option string) (s : Source) :
  snd (resolve_user E m attribute_name w) = Ok (inl s) ->
  well_formed s = true /\ attribute s = attribute_name.
Proof.
  unfold resolve_user, bind.
  destruct (find_active_code_repository E None w) as [w1 [[ctx|]|e]]; simpl.
  - destruct (has_local_changes ctx); simpl.
    + unfold reader, ret. destruct (_resolve_module E w1 m); discriminate.
    + unfold reader. destruct (_resolve_module E w1 m) as [name|]; [|discriminate].
      destruct (get_source_root E w1) as [sr|]; [|discriminate].
      destruct (pathlib.relative_to _ _); [|discriminate].
      unfold ret. simpl. intros [= <-]. now split.
  - unfold reader, ret. destruct (_resolve_module E w1 m); discriminate.
  - discriminate.
Qed.

Lemma resolve_in_descriptor (E : Env) (w : World) (m : Module)
      (attribute_name : option string) (s : Source) :
  snd (resolve_in E m attribute_name w) = Ok s ->
  well_formed s = true /\ attribute s = attribute_name.
Proof.
  rewrite resolve_in_unfold.
  destruct (if String.eqb (__name__ m) "__main__" then _ else _) as [module_name|e];
    [|discriminate].
  destruct (get_source_type E w m) as [source_type|e] eqn:Htype; [|discriminate].
  pose proof (get_source_type_range E w m source_type Htype) as Hrange.
  unfold resolve_by_type.
  destruct source_type; try congruence;
    try (unfold ret; simpl; intros [= <-]; now split).
  - unfold bind.
    destruct (resolve_user E m attribute_name w) as [w1 [[s'|name]|e]] eqn:Huser; simpl.
    + intros [= <-]. apply (resolve_user_descriptor E w m). now rewrite Huser.
    + intros [= <-]. now split.
    + discriminate.
  - destruct (opt_truthy _); unfold ret; simpl; intros [= <-]; now split.
Qed.

(** Every descriptor that [resolve] returns is well formed: its payload
    is the one of its classification (code-repository fields with
    code-repository, distribution fields with distribution-package, none
    otherwise), and its attribute is the name of the resolved object, or
    absent for a module. *)
Theorem resolve_descriptor_well_formed (E : Env) (obj : PyObject) (w : World) (s : Source) :
  snd (resolve E obj w) = Ok s ->
  well_formed s = true /\ attribute s = attribute_of obj.
Proof.
  unfold resolve. unfold bind at 1.
  destruct obj as [m|d].
  - unfold ret at 1. simpl. apply resolve_in_descriptor.
  - unfold bind at 1, gets at 1.
    destruct (sys_modules w !! def__module__ d) as [m|]; [|discriminate].
    unfold ret at 1. cbv beta iota.
    destruct (opt_truthy (Some (def__name__ d)) && _); [discriminate|].
    apply resolve_in_descriptor.
Qed.

Lemma resolve_descriptor_well_formed_witness :
  well_formed (CodeRepositorySource "repo-1" "abc123" "." "steps" (Some "trainer")) = true
  /\ attribute (CodeRepositorySource "repo-1" "abc123" "." "steps" (Some "trainer"))
     = attribute_of (ObjDef trainer).
Proof.
  exact (resolve_descriptor_well_formed demo_env (ObjDef trainer) demo_world
           (CodeRepositorySource "repo-1" "abc123" "." "steps" (Some "trainer")) eq_refl).
Defined.

Lemma resolve_user_keeps {B} (E : Env) (f : World -> B) (m : Module)
      (attribute_name : option string) :
  cache_blind f -> keeps f (resolve_user E m attribute_name).
Proof.
  intros Hf. unfold resolve_user.
  apply keeps_bind; [now apply find_keeps|]. intros [ctx|].
  - destruct (negb _).
    + apply keeps_bind; [apply keeps_reader|]. intros name.
      apply keeps_bind; [apply keeps_reader|]. intros sr.
      destruct (pathlib.relative_to _ _); auto with keeps.
    + apply keeps_bind; auto with keeps.
  - apply keeps_bind; auto with keeps.
Qed.

Lemma resolve_keeps {B} (E : Env) (f : World -> B) (obj : PyObject) :
  cache_blind f -> keeps f (resolve E obj).
Proof.
  intros Hf. unfold resolve. apply keeps_bind.
  - destruct obj as [m|d]; [apply keeps_ret|].
    apply keeps_bind; [apply keeps_gets|]. intros modules.
    destruct (modules !! _); auto with keeps.
  - intros [m attribute_name].
    destruct (opt_truthy attribute_name && _); [apply keeps_raise|].
    unfold resolve_in.
    apply keeps_bind; [destruct (String.eqb _ _); auto with keeps|]. intros module_name.
    apply keeps_bind; [apply keeps_reader|]. intros source_type.
    unfold resolve_by_type. destruct source_type; auto with keeps.
    + apply keeps_bind; [now apply resolve_user_keeps|].
      intros [source|name]; apply keeps_ret.
    + destruct (opt_truthy _); apply keeps_ret.
Qed.

(** Resolving has no side effect but on the repository-context cache and
    its counters: search path, module table, source-root override and
    warning log are as before. For an object whose module is not
    classified as user the whole state is unchanged, so no repository is
    looked up. *)
Theorem resolve_side_effects (E : Env) (obj : PyObject) (w : World) :
  let w' := fst (resolve E obj w) in
  sys_path w' = sys_path w
  /\ sys_modules w' = sys_modules w
  /\ _CUSTOM_SOURCE_ROOT w' = _CUSTOM_SOURCE_ROOT w
  /\ warning_log w' = warning_log w
  /\ sys_path_writes w' = sys_path_writes w
  /\ (forall m attribute_name,
        defined_in w obj m attribute_name ->
        get_source_type E w m <> Ok USER ->
        w' = w).
Proof.
  intros w'. subst w'.
  repeat (split; [apply resolve_keeps; auto with keeps|]).
  intros m attribute_name Hdef Htype.
  rewrite (resolve_defined E w obj m attribute_name Hdef), resolve_in_unfold.
  destruct (if String.eqb (__name__ m) "__main__" then _ else _); [|reflexivity].
  destruct (get_source_type E w m) as [source_type|e]; [|reflexivity].
  unfold resolve_by_type.
  destruct source_type; try reflexivity; try congruence.
  destruct (opt_truthy _); reflexivity.
Qed.

Lemma resolve_side_effects_witness :
  fst (resolve demo_env (ObjModule numpy_mod) demo_world) = demo_world.
Proof.
  refine (proj2 (proj2 (proj2 (proj2 (proj2
            (resolve_side_effects demo_env (ObjModule numpy_mod) demo_world)))))
            numpy_mod None (defined_module demo_world numpy_mod) _).
  discriminate.
Defined.

(** A module that is in the module table is loaded from there, with or
    without an import root. *)
Lemma _load_module_cached (E : Env) (name : string) (import_root : option string)
      (w : World) (m : Module) :
  sys_modules w !! name = Some m ->
  snd (_load_module E name import_root w) = Ok m.
Proof.
  intros Hm. unfold _load_module.
  destruct (opt_truthy import_root).
  - unfold prepend_python_path, try_finally, bind, sys_path_insert0, modify, import_module.
    simpl. rewrite Hm. unfold sys_path_remove. simpl.
    now rewrite String.eqb_refl.
  - unfold import_module. now rewrite Hm.
Qed.

Lemma load_tail_cached (E : Env) (s : Source) (import_root : option string)
      (w : World) (m : Module) :
  sys_modules w !! module s = Some m ->
  snd (bind (_load_module E (module s) import_root)
         (fun m => if opt_truthy (attribute s)
                   then bind (lift (getattr m (opt_str (attribute s))))
                             (fun obj => ret (LAttr obj))
                   else ret (LModule m)) w)
  = if opt_truthy (attribute s)
    then rbind (getattr m (opt_str (attribute s))) (fun obj => Ok (LAttr obj))
    else Ok (LModule m).
Proof.
  intros Hm.
  pose proof (_load_module_cached E (module s) import_root w m Hm) as Hres.
  unfold bind at 1.
  destruct (_load_module E (module s) import_root w) as [v r]. simpl in Hres. subst r.
  destruct (opt_truthy (attribute s)); [|reflexivity].
  unfold bind, lift, ret. destruct (getattr m _); reflexivity.
Qed.

(** What is loaded for an object from its own module and attribute. *)
Lemma reload_of_defined (w : World) (obj : PyObject) (m : Module)
      (attribute_name : option string) :
  defined_in w obj m attribute_name ->
  (forall d, obj = ObjDef d -> Str.truthy (def__name__ d) = true) ->
  (if opt_truthy attribute_name
   then rbind (getattr m (opt_str attribute_name)) (fun x => Ok (LAttr x))
   else Ok (LModule m)) = Ok (loaded_of obj).
Proof.
  intros [m0 | d m0 Hmod Hattr] Hname; simpl; [reflexivity|].
  rewrite (Hname d eq_refl). unfold getattr. now rewrite Hattr.
Qed.

(** Round trip outside user code. For a module, or a named class or
    function held by its module, where the module is registered under its
    own name, is not the entry-point module and is not classified as user:
    [resolve] returns a descriptor for the module's own name without
    touching the state, and loading it returns the identical object. *)
Theorem round_trip_outside_user_code (E : Env) (w : World) (obj : PyObject) (m : Module)
        (attribute_name : option string) (t : SourceType) :
  defined_in w obj m attribute_name ->
  (forall d, obj = ObjDef d -> Str.truthy (def__name__ d) = true) ->
  sys_modules w !! __name__ m = Some m ->
  __name__ m <> "__main__" ->
  get_source_type E w m = Ok t ->
  t <> USER ->
  exists s,
    resolve E obj w = (w, Ok s)
    /\ module s = __name__ m
    /\ snd (load E (inl s) w) = Ok (loaded_of obj).
Proof.
  intros Hdef Hname Hreg Hmain Htype Huser.
  pose proof (reload_of_defined w obj m attribute_name Hdef Hname) as Hreload.
  assert (Hres : resolve E obj w = resolve_by_type E m attribute_name (__name__ m) t w).
  { rewrite (resolve_defined E w obj m attribute_name Hdef), resolve_in_unfold.
    apply String.eqb_neq in Hmain. now rewrite Hmain, Htype. }
  rewrite Hres.
  assert (Hplain_noroot : forall ty, ty = INTERNAL \/ ty = BUILTIN ->
             snd (load E (inl (PlainSource (__name__ m) attribute_name ty)) w)
             = Ok (loaded_of obj)).
  { intros ty Hty. set (s0 := PlainSource (__name__ m) attribute_name ty).
    assert (Hshape : load E (inl s0) w
                     = bind (_load_module E (module s0) None)
                         (fun m0 => if opt_truthy (attribute s0)
                                    then bind (lift (getattr m0 (opt_str (attribute s0))))
                                              (fun x => ret (LAttr x))
                                    else ret (LModule m0)) w)
      by (subst s0; destruct Hty as [-> | ->]; reflexivity).
    rewrite Hshape, (load_tail_cached E s0 None w m Hreg). exact Hreload. }
  assert (Hplain_unknown : (exists sr, get_source_root E w = Ok sr) ->
             snd (load E (inl (PlainSource (__name__ m) attribute_name UNKNOWN)) w)
             = Ok (loaded_of obj)).
  { intros [sr Hroot]. set (s0 := PlainSource (__name__ m) attribute_name UNKNOWN).
    rewrite (load_with_root E s0 w sr (or_intror eq_refl) Hroot).
    rewrite (load_tail_cached E s0 (Some sr) w m Hreg). exact Hreload. }
  unfold resolve_by_type.
  destruct t; try congruence.
  - eexists. split; [reflexivity|]. split; [reflexivity|]. apply Hplain_noroot. now right.
  - eexists. split; [reflexivity|]. split; [reflexivity|]. apply Hplain_noroot. now left.
  - destruct (opt_truthy (_get_package_for_module E (__name__ m))).
    + set (s0 := DistributionPackageSource (__name__ m) attribute_name
                   (opt_str (_get_package_for_module E (__name__ m)))
                   (_get_package_version E
                      (opt_str (_get_package_for_module E (__name__ m))))
                   DISTRIBUTION_PACKAGE).
      exists s0. split; [reflexivity|]. split; [reflexivity|].
      rewrite (load_distribution_package E s0 w _ _ eq_refl eq_refl).
      unfold bind at 1.
      destruct (opt_truthy _ && _).
      * unfold modify at 1. cbv beta iota.
        rewrite (load_tail_cached E s0 None (log_warning WarnVersionMismatch w) m Hreg).
        exact Hreload.
      * unfold ret at 1. cbv beta iota.
        rewrite (load_tail_cached E s0 None w m Hreg). exact Hreload.
    + eexists. split; [reflexivity|]. split; [reflexivity|].
      apply Hplain_unknown.
      apply (get_source_type_used_root E w m DISTRIBUTION_PACKAGE Htype); discriminate.
  - exfalso. now apply (get_source_type_range E w m CODE_REPOSITORY Htype).
  - eexists. split; [reflexivity|]. split; [reflexivity|].
    apply Hplain_unknown.
    apply (get_source_type_used_root E w m UNKNOWN Htype); discriminate.
Qed.

Lemma round_trip_outside_user_code_witness :
  exists s,
    resolve demo_env (ObjModule numpy_mod) demo_world = (demo_world, Ok s)
    /\ module s = "numpy"
    /\ snd (load demo_env (inl s) demo_world) = Ok (LModule numpy_mod).
Proof.
  refine (round_trip_outside_user_code demo_env demo_world (ObjModule numpy_mod)
            numpy_mod None DISTRIBUTION_PACKAGE (defined_module demo_world numpy_mod)
            _ eq_refl _ eq_refl _); discriminate.
Defined.

(* ===================================================================== *)
(** ** Further properties: the validating loaders *)
(* ===================================================================== *)

(** The boolean validator agrees with the raising one: it answers true
    exactly when [load_and_validate_class] returns, both leave the same
    process state, and what [load_and_validate_class] returns is the
    object that [load] returns, a class and a subclass of the expected
    one. Every failure of the load is answered with false. *)
Theorem validators_agree (E : Env) (C : ClassTable) (source : Source + string)
        (expected_class : nat) (w : World) :
  fst (validate_source_class E C source expected_class w)
  = fst (load_and_validate_class E C source expected_class w)
  /\ (snd (validate_source_class E C source expected_class w) = true
      <-> exists obj,
            snd (load_and_validate_class E C source expected_class w) = ValidClass obj)
  /\ (forall obj,
        snd (load_and_validate_class E C source expected_class w) = ValidClass obj ->
        snd (load E source w) = Ok obj
        /\ is_expected_class C obj expected_class = true)
  /\ (forall e, snd (load E source w) = Raise e ->
        snd (validate_source_class E C source expected_class w) = false).
Proof.
  unfold validate_source_class, load_and_validate_class.
  destruct (load E source w) as [w' [obj|e]]; simpl.
  - destruct (is_expected_class C obj expected_class) eqn:Hclass; simpl.
    + split; [reflexivity|]. split; [split; eauto|].
      split; [|discriminate].
      intros obj' [= <-]. now split.
    + split; [reflexivity|]. split.
      * split; [discriminate|]. intros [obj' H]. discriminate.
      * split; discriminate.
  - split; [reflexivity|]. split.
    + split; [discriminate|]. intros [obj' H]. discriminate.
    + split; [discriminate | reflexivity].
Qed.

(** A descriptor without an attribute names a module, and a module is
    never accepted as a class: the raising validator never returns for it
    and the boolean validator answers false. *)
Theorem validators_reject_modules (E : Env) (C : ClassTable) (s : Source)
        (expected_class : nat) (w : World) :
  opt_truthy (attribute s) = false ->
  snd (validate_source_class E C (inl s) expected_class w) = false
  /\ forall obj,
       snd (load_and_validate_class E C (inl s) expected_class w) <> ValidClass obj.
Proof.
  intros Hattr.
  assert (Hmodule : forall obj, snd (load E (inl s) w) = Ok obj ->
                                exists m, obj = LModule m).
  { intros obj. unfold load.
    change (bind (ret s) ?k w) with (k s w). cbv beta. rewrite Hattr.
    unfold bind at 1.
    destruct (_ w) as [w1 [import_root|e]]; [|discriminate].
    unfold bind.
    destruct (_load_module E (module s) import_root w1) as [w2 [m|e]]; [|discriminate].
    unfold ret. simpl. intros [= <-]. eauto. }
  unfold validate_source_class, load_and_validate_class.
  destruct (load E (inl s) w) as [w' [obj|e]]; simpl.
  - destruct (Hmodule obj eq_refl) as [m ->]. simpl. split; [reflexivity | discriminate].
  - split; [reflexivity | discriminate].
Qed.

Lemma validators_reject_modules_witness :
  snd (validate_source_class demo_env demo_classes (inl builtin_source) 100 demo_world)
  = false.
Proof.
  exact (proj1 (validators_reject_modules demo_env demo_classes builtin_source 100
                  demo_world eq_refl)).
Defined.



Example validator_examples :
  snd (load_and_validate_class demo_env demo_classes (inl user_source) 100 demo_world)
  = ValidClass (LAttr 11)
  /\ snd (validate_source_class demo_env demo_classes (inl user_source) 100 demo_world)
     = true
  /\ snd (load_and_validate_class demo_env demo_classes (inl user_source) 7 demo_world)
     = RaisesTypeError
  /\ snd (load_and_validate_class demo_env demo_classes (inl missing_source) 100 demo_world)
     = RaisesFromLoad ImportError
  /\ snd (validate_source_class demo_env demo_classes (inl missing_source) 100 demo_world)
     = false.
Proof. repeat split. Qed.

(* ===================================================================== *)
(** ** Further properties: the search-path context manager *)
(* ===================================================================== *)

Lemma list_remove_None (x : string) (l : list string) :
  list_remove x l = None <-> x ∉ l.
Proof.
  induction l as [|y l IH]; simpl.
  - split; [intros _; apply not_elem_of_nil | reflexivity].
  - destruct (String.eqb y x) eqn:Hyx.
    + apply String.eqb_eq in Hyx. subst y. split; [discriminate|].
      intros H. exfalso. apply H. left.
    + apply String.eqb_neq in Hyx.
      destruct (list_remove x l) as [r|].
      * split; [discriminate|]. intros H. exfalso.
        assert (Hin : x ∉ l) by (intros Hin; apply H; now right).
        apply IH in Hin. discriminate.
      * split; [|reflexivity]. intros _ Hin. apply elem_of_cons in Hin.
        destruct Hin as [-> | Hin]; [congruence|]. now apply (proj1 IH).
Qed.

(** The cleanup of [prepend_python_path] decides the outcome: when the
    body leaves the prepended path on the search path, the outcome of the
    body (its result or its exception) is the outcome of the block; when
    the body has taken the path off, the block raises [ValueError] in
    place of whatever the body did, and the search path stays as the body
    left it. *)
Theorem prepend_python_path_outcome {A} (path : string) (body : M A) (w : World) :
  let w1 := fst (body (prepended path w)) in
  (path ∈ sys_path w1 ->
   snd (prepend_python_path path body w) = snd (body (prepended path w))
   /\ list_remove path (sys_path w1)
      = Some (sys_path (fst (prepend_python_path path body w))))
  /\ (path ∉ sys_path w1 ->
      prepend_python_path path body w = (w1, Raise ValueError)).
Proof.
  intros w1. subst w1.
  unfold prepend_python_path, try_finally, bind, sys_path_insert0, modify.
  fold (prepended path w).
  destruct (body (prepended path w)) as [w1 r]. simpl fst. simpl snd.
  unfold sys_path_remove.
  destruct (list_remove path (sys_path w1)) as [l|] eqn:Hremove.
  - split.
    + intros _. simpl. split; [destruct r|]; reflexivity.
    + intros Hnotin. apply list_remove_None in Hnotin. congruence.
  - split.
    + intros Hin. apply list_remove_None in Hremove. contradiction.
    + intros _. destruct r; reflexivity.
Qed.

Lemma prepend_python_path_outcome_witness :
  prepend_python_path "/proj" (modify (set_sys_path (fun _ => []))) demo_world
  = (set_sys_path (fun _ => []) (prepended "/proj" demo_world), Raise ValueError).
Proof.
  refine (proj2 (prepend_python_path_outcome "/proj" (modify (set_sys_path (fun _ => [])))
                   demo_world) _).
  simpl. apply not_elem_of_nil.
Defined.

(* ===================================================================== *)
(** ** Further properties: internal modules and the source root *)
(* ===================================================================== *)

Lemma split_first_cons (c a : ascii) (s : string) :
  Str.split_first c (String a s)
  = if Ascii.eqb a c then "" else String a (Str.split_first c s).
Proof.
  unfold Str.split_first. simpl.
  destruct (Ascii.eqb a c); [reflexivity|].
  destruct (Str.split c s); reflexivity.
Qed.

(** A string is its part before the first separator, alone or followed
    by the separator and a rest. *)
Lemma split_first_spec (c : ascii) (s : string) :
  s = Str.split_first c s
  \/ exists rest, s = Str.split_first c s +:+ String c rest.
Proof.
  induction s as [|a s IH]; [now left|].
  rewrite split_first_cons.
  destruct (Ascii.eqb a c) eqn:Hac.
  - apply Ascii.eqb_eq in Hac. subst a. right. now exists s.
  - destruct IH as [IH | [rest IH]].
    + left. now f_equal.
    + right. exists rest. rewrite IH at 1. reflexivity.
Qed.

Lemma prefix_app (p s : string) :
  String.prefix p s = true -> exists rest, s = p +:+ rest.
Proof.
  revert s. induction p as [|a p IH]; intros s; simpl.
  - intros _. now exists s.
  - destruct s as [|b s]; [discriminate|]. simpl.
    destruct (ascii_dec a b) as [Hab|]; [subst b | discriminate].
    intros H. destruct (IH s H) as [rest Hrest]. exists rest.
    rewrite Hrest at 1. reflexivity.
Qed.

(** A module is internal exactly when its name is [zenml] or begins with
    [zenml.]; a name that merely begins with the letters [zenml] is not. *)
Theorem is_internal_module_iff (module_name : string) :
  is_internal_module module_name = true
  <-> module_name = "zenml" \/ Str.startswith module_name "zenml." = true.
Proof.
  unfold is_internal_module. split.
  - intros H. apply String.eqb_eq in H.
    destruct (split_first_spec "."%char module_name) as [Hs | [rest Hs]];
      rewrite H in Hs.
    + now left.
    + right. rewrite Hs. destruct rest; reflexivity.
  - intros [-> | H]; [reflexivity|].
    destruct (prefix_app _ _ H) as [rest ->]. reflexivity.
Qed.

Example is_internal_module_examples :
  is_internal_module "zenml" = true
  /\ is_internal_module "zenml.steps.base" = true
  /\ is_internal_module "zenml_extras.steps" = false
  /\ is_internal_module "my.zenml" = false
  /\ is_internal_module "" = false.
Proof. repeat split. Qed.

Lemma in_parents_anchor (a b : pathlib.PurePath) :
  in_parents a b = true -> pathlib.anchor a = pathlib.anchor b.
Proof.
  unfold in_parents, pathlib.contains, pathlib.parents.
  intros H. apply existsb_exists in H. destruct H as (x & Hin & Heq).
  apply bool_decide_eq_true_1 in Heq. subst x.
  apply in_map_iff in Hin. destruct Hin as (l & <- & _). reflexivity.
Qed.

Lemma Path_anchor_relative (s : string) :
  os_path.isabs s = false -> pathlib.anchor (pathlib.Path s) = "".
Proof.
  unfold os_path.isabs, os_path.sep. intros H. simpl.
  unfold os_path.initial_slashes. now rewrite H.
Qed.

(** The source root is compared as given, not made absolute: with a
    relative source root (for instance an override such as ["src"]), no
    module whose file resolves to an absolute path is classified as
    user. *)
Theorem relative_source_root_has_no_user_code (E : Env) (w : World) (m : Module)
        (sr : string) :
  get_source_root E w = Ok sr ->
  os_path.isabs sr = false ->
  pathlib.anchor (path_resolve E (pathlib.Path (opt_str (__file__ m)))) <> "" ->
  get_source_type E w m <> Ok USER.
Proof.
  intros Hroot Hrel Habs.
  unfold get_source_type, is_user_file.
  destruct (opt_truthy (__file__ m)) eqn:Hfile.
  - rewrite (inspect_getfile_truthy m Hfile).
    destruct (is_internal_module _); [discriminate|].
    destruct (is_standard_lib_file E _); [discriminate|].
    rewrite Hroot. simpl.
    destruct (in_parents (pathlib.Path sr) _) eqn:Hin.
    + apply in_parents_anchor in Hin.
      rewrite (Path_anchor_relative sr Hrel) in Hin. congruence.
    + destruct (is_distribution_package_file E _ _); discriminate.
  - rewrite (inspect_getfile_falsy m Hfile). discriminate.
Qed.

Lemma relative_source_root_has_no_user_code_witness :
  get_source_type demo_env relative_root_world steps_mod <> Ok USER.
Proof.
  apply (relative_source_root_has_no_user_code demo_env relative_root_world steps_mod
           "proj" eq_refl eq_refl).
  discriminate.
Defined.

Lemma validators_agree_witness :
  snd (validate_source_class demo_env demo_classes (inl user_source) 100 demo_world) = true.
Proof.
  apply (proj2 (proj1 (proj2 (validators_agree demo_env demo_classes (inl user_source)
                                100 demo_world)))).
  exists (LAttr 11). reflexivity.
Defined.

Lemma is_internal_module_iff_witness :
  is_internal_module "zenml.steps" = true.
Proof.
  apply (proj2 (is_internal_module_iff "zenml.steps")). right. reflexivity.
Defined.

Lemma classifier_never_code_repository_witness :
  get_source_type demo_env demo_world steps_mod <> Ok CODE_REPOSITORY.
Proof.
  exact (classifier_never_code_repository demo_env demo_world steps_mod).
Defined.
